(** * echo2: the request-resolution engine of the configuration-driven responder

    A shallow embedding of package [configs] (routes, conditions, header
    matching) and of the request handler of package [main] (delay parameter,
    interruptible sleep, response composition, request dump), followed by
    the properties of the specification that concern them.

    Conventions.
    - Go's [string] is a byte string: Rocq's [string], one [ascii] per byte.
    - Go's [int] and [time.Duration] are 64-bit: [Z], with the wrap-around
      written out where the code does arithmetic ([wrap64]).
    - Go's [map[string]string] is [option (gmap string string)]: [None] is
      the nil map.  A [range] over a map visits its entries in an order the
      language leaves open; the order is taken from the [World].
    - The handler mutates a [*fasthttp.RequestCtx]; here it passes the
      context along explicitly. *)

From Stdlib Require Import ZArith String Ascii List Bool Lia SpecFloat.
From stdpp Require Import base option list gmap strings sorting fin_maps pretty.

Local Open Scope string_scope.
Local Open Scope list_scope.
Local Open Scope Z_scope.

(** ** Go basics *)

(** The value of a byte. *)
Definition byte (c : ascii) : Z := Z.of_N (N_of_ascii c).

(** Two's-complement wrap-around of a 64-bit signed integer. *)
Definition wrap64 (z : Z) : Z := (z + 2 ^ 63) mod 2 ^ 64 - 2 ^ 63.

Definition maxInt64 : Z := 2 ^ 63 - 1.
Definition minInt64 : Z := - 2 ^ 63.

(** [map[string]string]; [None] is the nil map. *)
Abbreviation map_string_string := (option (gmap string string)).

(** A function result [(T, error)]: the value, or the error's message. *)
Abbreviation result T := (sum T string).

(** What the language and the scheduler leave open during one request. *)
Inductive SelectCase : Set :=
  | TimerC        (* case <-timer.C *)
  | ShutdownChan. (* case <-shutdownChan *)

Record World : Type := {
  (** the order in which a [range] visits the entries of a map *)
  rangeOrder : gmap string string → list (string * string);
  (** a [range] visits every entry once *)
  rangeOrder_complete : ∀ m, rangeOrder m ≡ₚ map_to_list m;
  (** the case of the [select] in [sleepWithCancellation] that fires *)
  selected : SelectCase
}.

(** [for key, value := range m]: the entries visited, in order. *)
Definition range (w : World) (m : map_string_string) : list (string * string) :=
  match m with
  | None => []
  | Some m => rangeOrder w m
  end.

(** Reading [m[k]] on a possibly nil map. *)
Definition index (m : map_string_string) (k : string) : option string :=
  match m with
  | None => None
  | Some m => m !! k
  end.

(** Parts of Go's standard library that the handler reaches and that rest on
    tables not reproduced here. *)
Class Extern : Type := {
  (** [strings.EqualFold] from its label [hasUnicode] on: the comparison of
      the two remainders under Unicode simple case folding *)
  hasUnicode : string → string → bool;
  (** [encoding/json]: the JSON string literal of a Go string, quotes
      included (escapes, invalid UTF-8 replaced) *)
  jsonString : string → string
}.

(** [strings.ToLower] and [strings.ToUpper] on a string that has a byte of
    [utf8.RuneSelf] or more: the walks of [strings.Map] with the Unicode
    case tables. *)
Class ExternCase : Type := {
  mapToLower : string → string;
  mapToUpper : string → string
}.

(** ** package strings *)

Module strings.
Section EqualFold.
Context `{Extern}.

(** [strings.EqualFold]: the ASCII loop; the first byte pair with a byte of
    [utf8.RuneSelf] or more hands the remainders to [hasUnicode]. *)
Fixpoint EqualFold (s t : string) : bool :=
  match s, t with
  | String sc s', String tc t' =>
      let sr := byte sc in
      let tr := byte tc in
      if 128 <=? Z.lor sr tr then hasUnicode s t
      else if tr =? sr then EqualFold s' t'
      else
        let '(sr, tr) := if tr <? sr then (tr, sr) else (sr, tr) in
        if (65 <=? sr) && (sr <=? 90) && (tr =? sr + 97 - 65)
        then EqualFold s' t'
        else false
  | _, _ => (Z.of_nat (String.length s) =? Z.of_nat (String.length t))
  end.
End EqualFold.

Section Case.
Context `{ExternCase}.

(** The byte of a value. *)
Definition ofByte (z : Z) : ascii := ascii_of_N (Z.to_N z).

(** The first loop of [ToLower] and [ToUpper]: whether the string is all
    ASCII. *)
Fixpoint isASCII (s : string) : bool :=
  match s with
  | "" => true
  | String c s' => if 128 <=? byte c then false else isASCII s'
  end.

Fixpoint hasUpper (s : string) : bool :=
  match s with
  | "" => false
  | String c s' => ((65 <=? byte c) && (byte c <=? 90)) || hasUpper s'
  end.

Fixpoint hasLower (s : string) : bool :=
  match s with
  | "" => false
  | String c s' => ((97 <=? byte c) && (byte c <=? 122)) || hasLower s'
  end.

(** The second loop of [ToLower]: ['A'..'Z'] moved to ['a'..'z']. *)
Fixpoint lowerBytes (s : string) : string :=
  match s with
  | "" => ""
  | String c s' =>
      String (if (65 <=? byte c) && (byte c <=? 90)
              then ofByte (byte c + (97 - 65)) else c)
        (lowerBytes s')
  end.

(** The second loop of [ToUpper]: ['a'..'z'] moved to ['A'..'Z']. *)
Fixpoint upperBytes (s : string) : string :=
  match s with
  | "" => ""
  | String c s' =>
      String (if (97 <=? byte c) && (byte c <=? 122)
              then ofByte (byte c - (97 - 65)) else c)
        (upperBytes s')
  end.

(** [strings.ToLower] *)
Definition ToLower (s : string) : string :=
  if isASCII s
  then (if negb (hasUpper s) then s else lowerBytes s)
  else mapToLower s.

(** [strings.ToUpper] *)
Definition ToUpper (s : string) : string :=
  if isASCII s
  then (if negb (hasLower s) then s else upperBytes s)
  else mapToUpper s.
End Case.
End strings.

(** ** package strconv *)

Module strconv.
(** The decimal digits of a whole string, accumulated; [None] on a byte
      that is no digit. *)
Fixpoint digits (n : Z) (s : string) : option Z :=
    match s with
    | "" => Some n
    | String c s' =>
        let d := byte c - 48 in
        if (0 <=? d) && (d <=? 9) then digits (n * 10 + d) s' else None
    end.

(** [strconv.Atoi] on a 64-bit [int]: an optional sign, one digit or more,
    nothing else, and a value that fits; [None] stands for its error, whose
    text the caller drops.  The fast path for short strings computes the
    same value and is not told apart. *)
Definition Atoi (s : string) : option Z :=
  let '(neg, s1) :=
    match s with
    | String "-" r => (true, r)
    | String "+" r => (false, r)
    | _ => (false, s)
    end in
  match s1 with
  | "" => None
  | _ =>
      match digits 0 s1 with
      | None => None
      | Some un =>
          if neg
          then (if un <=? 2 ^ 63 then Some (- un) else None)
          else (if un <? 2 ^ 63 then Some un else None)
      end
  end.
End strconv.

(** ** package time *)

Module time.
(** [type Duration int64], in nanoseconds. *)
Definition Duration : Set := Z.

Definition Nanosecond : Duration := 1.
Definition Microsecond : Duration := 1000 * Nanosecond.
Definition Millisecond : Duration := 1000 * Microsecond.
Definition Second : Duration := 1000 * Millisecond.
Definition Minute : Duration := 60 * Second.
Definition Hour : Duration := 60 * Minute.

(** The two spellings of the micro sign, as UTF-8. *)
Definition micro_sign : string :=
  String (ascii_of_nat 194) (String (ascii_of_nat 181) "").
Definition greek_mu : string :=
  String (ascii_of_nat 206) (String (ascii_of_nat 188) "").

Definition unitMap (u : string) : option Z :=
  if String.eqb u "ns" then Some Nanosecond
  else if String.eqb u "us" then Some Microsecond
  else if String.eqb u (micro_sign +:+ "s") then Some Microsecond
  else if String.eqb u (greek_mu +:+ "s") then Some Microsecond
  else if String.eqb u "ms" then Some Millisecond
  else if String.eqb u "s" then Some Second
  else if String.eqb u "m" then Some Minute
  else if String.eqb u "h" then Some Hour
  else None.

Definition double_quote : ascii := ascii_of_nat 34.
Definition backslash : ascii := ascii_of_nat 92.

Definition lowerhex (n : Z) : ascii :=
  match String.get (Z.to_nat n) "0123456789abcdef" with
  | Some c => c
  | None => "0"%char
  end.

(** The body of [quote]: a byte outside printable ASCII becomes [\xNN]
    (every byte of a multi-byte rune, and every invalid byte, one by one),
    a quote or a backslash gets a backslash in front. *)
Fixpoint quote_body (s : string) : string :=
  match s with
  | "" => ""
  | String c s' =>
      let b := byte c in
      (if (128 <=? b) || (b <? 32)
       then String backslash
              (String "x" (String (lowerhex (Z.shiftr b 4))
                 (String (lowerhex (Z.land b 15)) "")))
       else if Ascii.eqb c double_quote || Ascii.eqb c backslash
       then String backslash (String c "")
       else String c "")
      +:+ quote_body s'
  end.

Definition quote (s : string) : string :=
  String double_quote (quote_body s +:+ String double_quote "").

Definition isDigit (b : Z) : bool := (48 <=? b) && (b <=? 57).

(** [leadingInt]: the leading run of digits as a number; [None] is
    [errLeadingInt] (more than [1<<63]). *)
Fixpoint leadingInt (x : Z) (s : string) : option (Z * string) :=
  match s with
  | "" => Some (x, s)
  | String c s' =>
      let b := byte c in
      if negb (isDigit b) then Some (x, s)
      else if 2 ^ 63 / 10 <? x then None
      else
        let x := x * 10 + b - 48 in
        if 2 ^ 63 <? x then None else leadingInt x s'
  end.

(** [leadingFraction]: the leading run of digits as [x / scale]; digits
    past the capacity of [x] are read and dropped.  [scale] is a power of
    ten of at most [10^19], which a float64 holds exactly. *)
Fixpoint leadingFraction (x scale : Z) (overflow : bool) (s : string)
    : Z * Z * string :=
  match s with
  | "" => (x, scale, s)
  | String c s' =>
      let b := byte c in
      if negb (isDigit b) then (x, scale, s)
      else if overflow then leadingFraction x scale overflow s'
      else if (2 ^ 63 - 1) / 10 <? x then leadingFraction x scale true s'
      else
        let y := x * 10 + b - 48 in
        if 2 ^ 63 <? y then leadingFraction x scale true s'
        else leadingFraction y (scale * 10) false s'
  end.

(** [float64(n)] for an unsigned integer: rounded to nearest, ties to even. *)
Definition float64 (n : Z) : spec_float := binary_normalize 53 1024 n 0 false.

(** [uint64(x)] for a float64 that is positive and in range: truncation. *)
Definition uint64 (x : spec_float) : Z :=
  match x with
  | S754_finite false m e =>
      if 0 <=? e then Zpos m * 2 ^ e else Zpos m / 2 ^ (- e)
  | _ => 0
  end.

(** The unit: the bytes up to the next ['.'] or digit. *)
Fixpoint splitUnit (s : string) : string * string :=
  match s with
  | "" => ("", "")
  | String c s' =>
      let b := byte c in
      if (b =? 46) || isDigit b then ("", s)
      else let '(u, rest) := splitUnit s' in (String c u, rest)
  end.

Definition invalidDuration (orig : string) : string :=
  "time: invalid duration " +:+ quote orig.

(** The loop [for s != ""] of [ParseDuration]; [d] is the sum so far, an
    unsigned 64-bit integer.  Every round takes at least the unit from
    [s], so [fuel] of the length of [s] is never used up ([None]). *)
Fixpoint parseLoop (fuel : nat) (orig s : string) (d : Z)
    : option (result Z) :=
  match s with
  | "" => Some (inl d)
  | String c _ =>
      match fuel with
      | O => None
      | S fuel =>
          if negb ((byte c =? 46) || isDigit (byte c))
          then Some (inr (invalidDuration orig))
          else
            match leadingInt 0 s with
            | None => Some (inr (invalidDuration orig))
            | Some (v, s1) =>
                let pre := negb (Nat.eqb (String.length s) (String.length s1)) in
                let '(f, scale, s2, post) :=
                  match s1 with
                  | String "." r =>
                      let '(f, scale, r') := leadingFraction 0 1 false r in
                      (f, scale, r',
                       negb (Nat.eqb (String.length r) (String.length r')))
                  | _ => (0, 1, s1, false)
                  end in
                if negb pre && negb post
                then Some (inr (invalidDuration orig))
                else
                  let '(u, s3) := splitUnit s2 in
                  if String.eqb u ""
                  then Some (inr ("time: missing unit in duration "
                                  +:+ quote orig))
                  else
                    match unitMap u with
                    | None =>
                        Some (inr ("time: unknown unit " +:+ quote u
                                   +:+ " in duration " +:+ quote orig))
                    | Some unit =>
                        if 2 ^ 63 / unit <? v
                        then Some (inr (invalidDuration orig))
                        else
                          let v := v * unit in
                          let v :=
                            if 0 <? f
                            then (v + uint64 (SFmul 53 1024 (float64 f)
                                        (SFdiv 53 1024 (float64 unit)
                                           (float64 scale)))) mod 2 ^ 64
                            else v in
                          if (0 <? f) && (2 ^ 63 <? v)
                          then Some (inr (invalidDuration orig))
                          else
                            let d := (d + v) mod 2 ^ 64 in
                            if 2 ^ 63 <? d
                            then Some (inr (invalidDuration orig))
                            else parseLoop fuel orig s3 d
                    end
            end
      end
  end.

(** [time.ParseDuration]. *)
Definition ParseDuration (s : string) : result Duration :=
  let orig := s in
  let '(neg, s) :=
    match s with
    | String "-" r => (true, r)
    | String "+" r => (false, r)
    | _ => (false, s)
    end in
  if String.eqb s "0" then inl 0
  else if String.eqb s "" then inr (invalidDuration orig)
  else
    match parseLoop (String.length s) orig s 0 with
    | None => inr (invalidDuration orig)
    | Some (inr err) => inr err
    | Some (inl d) =>
        if neg then inl (wrap64 (- wrap64 d))
        else if 2 ^ 63 - 1 <? d then inr (invalidDuration orig)
        else inl (wrap64 d)
    end.
End time.

(** ** package configs *)

Module RouteCondition.
(** [type RouteCondition struct] *)
Record t : Type := {
  HeaderMatch : map_string_string;
  ResponseBody : string;
  ResponseHeader : map_string_string;
  ResponseStatus : Z
}.

Definition GetResponseBody (c : t) : string := ResponseBody c.

Definition GetResponseHeaders (c : t) : map_string_string :=
  match ResponseHeader c with
  | None => Some ∅
  | Some m => Some m
  end.

Definition GetResponseStatus (c : t) : Z :=
  if ResponseStatus c =? 0 then 200 else ResponseStatus c.

Section MatchesHeaders.
Context `{Extern}.

(** The two nested [range] loops: [forallb] leaves at the first expected
    pair that is not found, [existsb] at the first request header that
    fits. *)
Definition MatchesHeaders (w : World) (c : t)
    (requestHeaders : map_string_string) : bool :=
  forallb (λ '(expectedKey, expectedValue),
    existsb (λ '(actualKey, actualValue),
      strings.EqualFold expectedKey actualKey
      && String.eqb actualValue expectedValue)
      (range w requestHeaders))
    (range w (HeaderMatch c)).
End MatchesHeaders.
End RouteCondition.

Module Route.
(** [type Route struct] *)
Record t : Type := {
  Path : string;
  Method : string;
  ResponseBody : string;
  ResponseHeader : map_string_string;
  ResponseStatus : Z;
  ResponseDump : bool;
  Conditions : list RouteCondition.t
}.

Definition GetMethod (r : t) : string :=
  if String.eqb (Method r) "" then "GET" else Method r.

Definition GetResponseBody (r : t) : string := ResponseBody r.

Definition GetResponseHeaders (r : t) : map_string_string :=
  match ResponseHeader r with
  | None => Some ∅
  | Some m => Some m
  end.

Definition GetResponseStatus (r : t) : Z :=
  if ResponseStatus r =? 0 then 200 else ResponseStatus r.

Definition GetResponseDump (r : t) : bool := ResponseDump r.
End Route.

Module ServerConfig.
(** [type ServerConfig struct] *)
Record t : Type := {
  Address : string;
  LogLevel : string;
  Routes : list Route.t
}.

Section GetLogLevel.
Context `{ExternCase}.

Definition GetLogLevel (s : t) : string :=
  if String.eqb (LogLevel s) "" then "info" else strings.ToLower (LogLevel s).
End GetLogLevel.
End ServerConfig.

(** What [LoadConfig] gets from outside the program. *)
Class ExternFile : Type := {
  (** [os.ReadFile]: the content of the file, or the error *)
  ReadFile : string → result string;
  (** [yaml.Unmarshal] into a zero [ServerConfig]: the configuration read
      from the content, or the error *)
  Unmarshal : string → result ServerConfig.t
}.

Module configs.
(** The keys of the map [validMethods]. *)
Definition validMethods (method : string) : bool :=
  String.eqb method "GET" || String.eqb method "POST"
  || String.eqb method "PUT" || String.eqb method "DELETE"
  || String.eqb method "PATCH" || String.eqb method "HEAD"
  || String.eqb method "OPTIONS".

(** The loop of [validateConfig] over the routes, from index [i] on: the
    error of the first route it refuses. *)
Fixpoint validateRoutes (i : nat) (routes : list Route.t) : option string :=
  match routes with
  | [] => None
  | route :: rest =>
      if String.eqb (Route.Path route) ""
      then Some ("route " +:+ pretty i +:+ ": path cannot be empty")
      else if negb (String.eqb (Route.Method route) "")
              && negb (validMethods (Route.Method route))
      then Some ("route " +:+ pretty i +:+ ": invalid HTTP method '"
                 +:+ Route.Method route +:+ "'")
      else validateRoutes (S i) rest
  end.

(** [validateConfig]: the configuration as the function leaves it (the
    address is set in place before the routes are looked at), and the error
    if there is one. *)
Definition validateConfig (config : ServerConfig.t)
    : ServerConfig.t * option string :=
  let config :=
    if String.eqb (ServerConfig.Address config) ""
    then {| ServerConfig.Address := ":12330";
            ServerConfig.LogLevel := ServerConfig.LogLevel config;
            ServerConfig.Routes := ServerConfig.Routes config |}
    else config in
  (config, validateRoutes 0 (ServerConfig.Routes config)).

Section LoadConfig.
Context `{ExternFile}.

(** [LoadConfig] *)
Definition LoadConfig (filePath : string) : result ServerConfig.t :=
  match ReadFile filePath with
  | inr err => inr ("failed to read config file: " +:+ err)
  | inl data =>
      match Unmarshal data with
      | inr err => inr ("failed to unmarshal config: " +:+ err)
      | inl config =>
          match validateConfig config with
          | (_, Some err) => inr ("invalid config: " +:+ err)
          | (config, None) => inl config
          end
      end
  end.
End LoadConfig.
End configs.

(** ** package fasthttp

    The part of [fasthttp.RequestCtx] the handler uses.  The request is read
    only.  Of the response, the model keeps the status code, the
    Content-Type slot (which [fasthttp] stores apart from the other headers
    and reads back with a default), the other headers as the sequence of
    pairs handed to [Header.Set], and the body. *)

Module fasthttp.
Definition StatusBadRequest : Z := 400.

Definition defaultContentType : string := "text/plain; charset=utf-8".

(** [Args]: the query arguments, in the order of the query string. *)
Definition Args : Type := list (string * string).

(** [Args.Peek]: the value of the first argument of that name, empty when
    there is none. *)
Fixpoint Peek (args : Args) (key : string) : string :=
  match args with
  | [] => ""
  | (k, v) :: rest => if String.eqb k key then v else Peek rest key
  end.

Record Request : Type := {
  (** the pairs [Request.Header.VisitAll] hands to its visitor, in order *)
  RequestHeader : list (string * string);
  (** [QueryArgs()] *)
  QueryArgs : Args
}.

Record ResponseHeader : Type := {
  statusCode : Z;
  contentType : string;
  (** the other pairs set, in the order of the calls *)
  h : list (string * string)
}.

Record Response : Type := {
  Header : ResponseHeader;
  body : string
}.

Record RequestCtx : Type := {
  Request_ : Request;
  Response_ : Response
}.

(** A context as the server hands it to a handler: nothing written yet. *)
Definition fresh (req : Request) : RequestCtx :=
  {| Request_ := req;
     Response_ := {| Header := {| statusCode := 0; contentType := ""; h := [] |};
                     body := "" |} |}.

Definition withHeader (f : ResponseHeader → ResponseHeader)
    (ctx : RequestCtx) : RequestCtx :=
  {| Request_ := Request_ ctx;
     Response_ := {| Header := f (Header (Response_ ctx));
                     body := body (Response_ ctx) |} |}.

(** [ctx.SetStatusCode] *)
Definition SetStatusCode (code : Z) : RequestCtx → RequestCtx :=
  withHeader (λ hd, {| statusCode := code;
                        contentType := contentType hd; h := h hd |}).

(** [ctx.SetContentType] *)
Definition SetContentType (ct : string) : RequestCtx → RequestCtx :=
  withHeader (λ hd, {| statusCode := statusCode hd;
                        contentType := ct; h := h hd |}).

(** [ctx.WriteString]: appends to the response body. *)
Definition WriteString (s : string) (ctx : RequestCtx) : RequestCtx :=
  {| Request_ := Request_ ctx;
     Response_ := {| Header := Header (Response_ ctx);
                     body := body (Response_ ctx) +:+ s |} |}.

Definition toLower (b : Z) : Z :=
  if (65 <=? b) && (b <=? 90) then b + 32 else b.

(** [caseInsensitiveCompare]: equality of byte strings up to ASCII case. *)
Fixpoint caseInsensitiveCompare (a b : string) : bool :=
  match a, b with
  | "", "" => true
  | String x a', String y b' =>
      (toLower (byte x) =? toLower (byte y)) && caseInsensitiveCompare a' b'
  | _, _ => false
  end.

(** [ctx.Response.Header.Set]: a key that is Content-Type up to case goes
    to the Content-Type slot, any other pair is recorded. *)
Definition Header_Set (key value : string) : RequestCtx → RequestCtx :=
  withHeader (λ hd,
    if caseInsensitiveCompare "Content-Type" key
    then {| statusCode := statusCode hd; contentType := value; h := h hd |}
    else {| statusCode := statusCode hd; contentType := contentType hd;
            h := h hd ++ [(key, value)] |}).

(** [ResponseHeader.ContentType]: the slot, or the default when it is
    empty. *)
Definition ContentType (hd : ResponseHeader) : string :=
  if String.eqb (contentType hd) "" then defaultContentType
  else contentType hd.

(** [ctx.Response.Header.Peek("Content-Type")] *)
Definition Header_Peek_ContentType (ctx : RequestCtx) : string :=
  ContentType (Header (Response_ ctx)).

(** [Response.StatusCode]: 200 while none is set. *)
Definition StatusCode (ctx : RequestCtx) : Z :=
  let code := statusCode (Header (Response_ ctx)) in
  if code =? 0 then 200 else code.

(** [Response.Body] *)
Definition Body (ctx : RequestCtx) : string := body (Response_ ctx).
End fasthttp.

(** ** package main *)

(** [type RequestDump struct] *)
Record RequestDump : Type := {
  Headers : map_string_string;
  QueryParameters : map_string_string
}.

(** ** package encoding/json, for a [RequestDump] *)

Module json.
Section Marshal.
Context `{Extern}.

Definition newline : string := String (ascii_of_nat 10) "".

(** A name between double quotes. *)
Definition quoted (name : string) : string :=
  String time.double_quote (name +:+ String time.double_quote "").

Fixpoint repeat_string (n : nat) (s : string) : string :=
  match n with
  | O => ""
  | S n => s +:+ repeat_string n s
  end.

(** A line break, then [prefix] and [depth] times [indent]. *)
Definition breakLine (prefix indent : string) (depth : nat) : string :=
  newline +:+ prefix +:+ repeat_string depth indent.

(** The order in which a map is written: by key, bytes compared. *)
Definition key_le (a b : string * string) : Prop :=
  String.leb a.1 b.1 = true.

Global Instance key_le_dec a b : Decision (key_le a b).
Proof. unfold key_le. apply _. Defined.

Definition sortedEntries (m : gmap string string) : list (string * string) :=
  merge_sort key_le (map_to_list m).

Fixpoint joinWith (sep : string) (l : list string) : string :=
  match l with
  | [] => ""
  | [x] => x
  | x :: rest => x +:+ sep +:+ joinWith sep rest
  end.

(** A [map[string]string] as an indented JSON object at nesting [depth]:
    [null] for the nil map, [{}] for the empty one, else one member a
    line. *)
Definition encodeMap (prefix indent : string) (depth : nat)
    (m : map_string_string) : string :=
  match m with
  | None => "null"
  | Some m =>
      match sortedEntries m with
      | [] => "{}"
      | entries =>
          "{"
          +:+ joinWith ","
                (List.map (λ '(k, v),
                   breakLine prefix indent (S depth)
                   +:+ jsonString k +:+ ": " +:+ jsonString v) entries)
          +:+ breakLine prefix indent depth +:+ "}"
      end
  end.

(** [json.MarshalIndent(dump, prefix, indent)].  A struct of two string
    maps has no value the encoder refuses, so the error is never
    returned. *)
Definition MarshalIndent (dump : RequestDump) (prefix indent : string)
    : result string :=
  inl ("{"
       +:+ breakLine prefix indent 1
       +:+ quoted "headers" +:+ ": "
       +:+ encodeMap prefix indent 1 (Headers dump)
       +:+ ","
       +:+ breakLine prefix indent 1
       +:+ quoted "query_parameters" +:+ ": "
       +:+ encodeMap prefix indent 1 (QueryParameters dump)
       +:+ breakLine prefix indent 0 +:+ "}").
End Marshal.
End json.

(** ** package main: the logger *)

Module slog.
(** The levels of [log/slog] the program uses. *)
Inductive Level : Set :=
  | LevelDebug
  | LevelInfo
  | LevelWarn
  | LevelError.
End slog.

Section setupLogger.
Context `{ExternCase}.

(** [setupLogger]: the level the default logger is set up with. *)
Definition setupLogger (level : string) : slog.Level :=
  let l := strings.ToLower level in
  if String.eqb l "debug" then slog.LevelDebug
  else if String.eqb l "info" then slog.LevelInfo
  else if String.eqb l "warn" || String.eqb l "warning" then slog.LevelWarn
  else if String.eqb l "error" then slog.LevelError
  else slog.LevelInfo.
End setupLogger.

(** ** package fasthttp/router

    The router is used through the eight methods that register a handler
    for a path, and through its [NotFound] field.  A registration the
    router refuses panics. *)

Module router.
Inductive Method : Set :=
  | GET | POST | PUT | DELETE | PATCH | HEAD | OPTIONS | ANY.

Global Instance Method_eq_dec : EqDecision Method.
Proof. solve_decision. Defined.

(** The HTTP method a registration is for; [ANY] is for all of them. *)
Definition name (m : Method) : option string :=
  match m with
  | GET => Some "GET"
  | POST => Some "POST"
  | PUT => Some "PUT"
  | DELETE => Some "DELETE"
  | PATCH => Some "PATCH"
  | HEAD => Some "HEAD"
  | OPTIONS => Some "OPTIONS"
  | ANY => None
  end.
End router.

(** The router itself is not part of the program.  [Handle m path route r]
    is [r.GET(path, handler)] and the like, for the handler that serves
    [route]: the router with the registration, or the value it panics
    with.  [SetNotFound] is the assignment to [r.NotFound]. *)
Class ExternRouter : Type := {
  Router : Type;
  New : Router;
  Handle : router.Method → string → Route.t → Router → result Router;
  SetNotFound : (fasthttp.RequestCtx → fasthttp.RequestCtx) → Router → Router
}.

(** ** package main: the server *)

Module Server.
Section Handler.
Context `{Extern}.

(** [parseDelayParam]: the [delay] query argument as a duration. *)
Definition parseDelayParam (ctx : fasthttp.RequestCtx) : result time.Duration :=
  let delayStr :=
    fasthttp.Peek (fasthttp.QueryArgs (fasthttp.Request_ ctx)) "delay" in
  if String.eqb delayStr "" then inl 0
  else
    match time.ParseDuration delayStr with
    | inr err =>
        match strconv.Atoi delayStr with
        | Some ms => inl (wrap64 (ms * time.Millisecond))
        | None => inr err
        end
    | inl delay => inl delay
    end.

(** What [sleepWithCancellation] does with timers. *)
Inductive TimerEvent : Set :=
  | NewTimer (d : time.Duration)
  | Stop.

(** [sleepWithCancellation]: whether the sleep completed, and the timer it
    made and released on the way. *)
Definition sleepWithCancellation (w : World) (delay : time.Duration)
    : bool * list TimerEvent :=
  if delay <=? 0 then (true, [])
  else
    match selected w with
    | TimerC => (true, [NewTimer delay; Stop])
    | ShutdownChan => (false, [NewTimer delay; Stop])
    end.

(** [extractHeaders]: a later pair of the same name replaces an earlier one. *)
Definition extractHeaders (ctx : fasthttp.RequestCtx) : map_string_string :=
  Some (fold_left (λ headers '(key, value), <[key := value]> headers)
          (fasthttp.RequestHeader (fasthttp.Request_ ctx)) ∅).

(** [extractQueryParameters] *)
Definition extractQueryParameters (ctx : fasthttp.RequestCtx)
    : map_string_string :=
  Some (fold_left (λ queryParams '(key, value), <[key := value]> queryParams)
          (fasthttp.QueryArgs (fasthttp.Request_ ctx)) ∅).

(** The loop over [route.Conditions] with its [break]: the condition whose
    response is taken, if any. *)
Fixpoint checkConditions (w : World) (conditions : list RouteCondition.t)
    (requestHeaders : map_string_string) : option RouteCondition.t :=
  match conditions with
  | [] => None
  | condition :: rest =>
      if RouteCondition.MatchesHeaders w condition requestHeaders
      then Some condition
      else checkConditions w rest requestHeaders
  end.

(** [handleRoute] from the comment [Check if any conditions match the
    request headers] to its end: matching, composition, dump, body. *)
Definition respond (w : World) (ctx : fasthttp.RequestCtx) (route : Route.t)
    : fasthttp.RequestCtx :=
  let requestHeaders := extractHeaders ctx in
  let '(responseBody, responseHeaders, responseStatus) :=
    match checkConditions w (Route.Conditions route) requestHeaders with
    | Some condition =>
        (RouteCondition.GetResponseBody condition,
         RouteCondition.GetResponseHeaders condition,
         RouteCondition.GetResponseStatus condition)
    | None =>
        (Route.GetResponseBody route,
         Route.GetResponseHeaders route,
         Route.GetResponseStatus route)
    end in
  let ctx := fasthttp.SetStatusCode responseStatus ctx in
  let ctx :=
    fold_left (λ ctx '(key, value), fasthttp.Header_Set key value ctx)
      (range w responseHeaders) ctx in
  let ctx :=
    if Nat.eqb (String.length (fasthttp.Header_Peek_ContentType ctx)) 0
    then fasthttp.SetContentType "text/plain" ctx
    else ctx in
  let finalResponseBody := responseBody in
  let '(finalResponseBody, ctx) :=
    if Route.GetResponseDump route
    then
      let requestHeaders := extractHeaders ctx in
      let queryParams := extractQueryParameters ctx in
      let dump := {| Headers := requestHeaders;
                     QueryParameters := queryParams |} in
      match json.MarshalIndent dump "" "  " with
      | inr err => (finalResponseBody, ctx)
      | inl dumpJSON =>
          (dumpJSON,
           fasthttp.Header_Set "Content-Type" "application/json" ctx)
      end
    else (finalResponseBody, ctx) in
  fasthttp.WriteString finalResponseBody ctx.

(** [handleRoute]: the context after the handler, and its timer events.
    The delay comes first; an error or a cancelled sleep returns at once. *)
Definition handleRoute (w : World) (ctx : fasthttp.RequestCtx)
    (route : Route.t) : fasthttp.RequestCtx * list TimerEvent :=
  match parseDelayParam ctx with
  | inr err =>
      let ctx := fasthttp.SetStatusCode fasthttp.StatusBadRequest ctx in
      let ctx := fasthttp.SetContentType "text/plain" ctx in
      let ctx := fasthttp.WriteString ("Invalid delay parameter: " +:+ err) ctx in
      (ctx, [])
  | inl delay =>
      let '(completed, timers) :=
        if 0 <? delay then sleepWithCancellation w delay else (true, []) in
      if negb completed then (ctx, timers)
      else (respond w ctx route, timers)
  end.

(** [matchRoute] *)
Definition matchRoute (route : Route.t) (path method : string) : bool :=
  if negb (strings.EqualFold (Route.GetMethod route) method) then false
  else String.eqb (Route.Path route) path.

(** The answer of [RequestHandler] when no route matches. *)
Definition notFound (ctx : fasthttp.RequestCtx) : fasthttp.RequestCtx :=
  let ctx := fasthttp.SetStatusCode 404 ctx in
  let ctx := fasthttp.SetContentType "text/plain" ctx in
  fasthttp.WriteString "404 Not Found" ctx.

(** The loop of [RequestHandler] over the routes, and what follows it. *)
Fixpoint serve (w : World) (routes : list Route.t) (path method : string)
    (ctx : fasthttp.RequestCtx) : fasthttp.RequestCtx * list TimerEvent :=
  match routes with
  | [] => (notFound ctx, [])
  | route :: rest =>
      if matchRoute route path method
      then handleRoute w ctx route
      else serve w rest path method ctx
  end.

(** [RequestHandler]; [path] and [method] are [ctx.Path()] and
    [ctx.Method()]. *)
Definition RequestHandler (w : World) (config : ServerConfig.t)
    (path method : string) (ctx : fasthttp.RequestCtx)
    : fasthttp.RequestCtx * list TimerEvent :=
  serve w (ServerConfig.Routes config) path method ctx.

Context `{ExternCase} `{ExternRouter}.

(** The [switch] of [initializeRouter]: the method of the router that
    registers a route of that method. *)
Definition registration (method : string) : router.Method :=
  if String.eqb method "GET" then router.GET
  else if String.eqb method "POST" then router.POST
  else if String.eqb method "PUT" then router.PUT
  else if String.eqb method "DELETE" then router.DELETE
  else if String.eqb method "PATCH" then router.PATCH
  else if String.eqb method "HEAD" then router.HEAD
  else if String.eqb method "OPTIONS" then router.OPTIONS
  else router.ANY.

(** A call of one of the registering methods: which one, the path, and the
    route the handler serves. *)
Definition Call : Type := router.Method * string * Route.t.

(** The loop of [initializeRouter] over the routes: the calls it makes, in
    order, and the router it ends with, or the panic of the call that was
    refused, which ends the loop. *)
Fixpoint registerRoutes (routes : list Route.t) (r : Router)
    : list Call * result Router :=
  match routes with
  | [] => ([], inl r)
  | route :: rest =>
      let method := strings.ToUpper (Route.GetMethod route) in
      let path := Route.Path route in
      let call := (registration method, path, route) in
      match Handle (registration method) path route r with
      | inr panic => ([call], inr panic)
      | inl r =>
          let '(calls, outcome) := registerRoutes rest r in
          (call :: calls, outcome)
      end
  end.

(** [initializeRouter], of the version of the server that dispatches with
    [fasthttp/router]: the registrations it asks for, and the router it
    leaves in [s.router], or the panic it ends with. *)
Definition initializeRouter (config : ServerConfig.t)
    : list Call * result Router :=
  let '(calls, outcome) := registerRoutes (ServerConfig.Routes config) New in
  (calls,
   match outcome with
   | inl r => inl (SetNotFound notFound r)
   | inr panic => inr panic
   end).
End Handler.
End Server.

(** ** Reference instances *)

(** An [Extern] that agrees with Go on ASCII strings: no fold beyond ASCII,
    and a JSON literal without escapes. *)
Definition asciiExtern : Extern :=
  {| hasUnicode := λ s t, String.eqb s t;
     jsonString := json.quoted |}.

(** A world where maps are visited in the order of [map_to_list], and one
    where they are visited the other way round. *)
Definition world (c : SelectCase) : World :=
  {| rangeOrder := map_to_list;
     rangeOrder_complete := λ m, reflexivity (map_to_list m);
     selected := c |}.

Definition backwards (c : SelectCase) : World :=
  {| rangeOrder := λ m, reverse (map_to_list m);
     rangeOrder_complete := λ m, reverse_Permutation (map_to_list m);
     selected := c |}.

(** ** Sample requests and routes *)

Definition requestWith (headers : list (string * string))
    (query : fasthttp.Args) : fasthttp.Request :=
  {| fasthttp.RequestHeader := headers; fasthttp.QueryArgs := query |}.

(** The secured route of the end-to-end scenario of the specification. *)
Definition bearer : RouteCondition.t :=
  {| RouteCondition.HeaderMatch := Some {[ "Authorization" := "Bearer T" ]};
     RouteCondition.ResponseBody := "ok";
     RouteCondition.ResponseHeader := None;
     RouteCondition.ResponseStatus := 200 |}.

Definition secure : Route.t :=
  {| Route.Path := "/api/secure";
     Route.Method := "GET";
     Route.ResponseBody := "Unauthorized";
     Route.ResponseHeader := None;
     Route.ResponseStatus := 401;
     Route.ResponseDump := false;
     Route.Conditions := [bearer] |}.

(** A route without conditions. *)
Definition hello : Route.t :=
  {| Route.Path := "/hello";
     Route.Method := "";
     Route.ResponseBody := "Hello, World!";
     Route.ResponseHeader := Some {[ "X-Custom" := "custom-value" ]};
     Route.ResponseStatus := 0;
     Route.ResponseDump := false;
     Route.Conditions := [] |}.

(** The same routes with the dump switched on. *)
Definition helloDump : Route.t :=
  {| Route.Path := "/hello";
     Route.Method := "";
     Route.ResponseBody := "Hello, World!";
     Route.ResponseHeader := Some {[ "X-Custom" := "custom-value" ]};
     Route.ResponseStatus := 0;
     Route.ResponseDump := true;
     Route.Conditions := [] |}.

(** A condition that overrides with an empty body and no headers. *)
Definition silent : RouteCondition.t :=
  {| RouteCondition.HeaderMatch := None;
     RouteCondition.ResponseBody := "";
     RouteCondition.ResponseHeader := None;
     RouteCondition.ResponseStatus := 204 |}.

Definition quiet (dump : bool) : Route.t :=
  {| Route.Path := "/quiet";
     Route.Method := "";
     Route.ResponseBody := "Hello, World!";
     Route.ResponseHeader := Some {[ "X-Custom" := "custom-value" ]};
     Route.ResponseStatus := 0;
     Route.ResponseDump := dump;
     Route.Conditions := [silent] |}.

(** A route and a condition with a negative status. *)
Definition negativeRoute : Route.t :=
  {| Route.Path := "/negative";
     Route.Method := "";
     Route.ResponseBody := "";
     Route.ResponseHeader := None;
     Route.ResponseStatus := -1;
     Route.ResponseDump := false;
     Route.Conditions := [] |}.

Definition negativeCondition : RouteCondition.t :=
  {| RouteCondition.HeaderMatch := None;
     RouteCondition.ResponseBody := "";
     RouteCondition.ResponseHeader := None;
     RouteCondition.ResponseStatus := -1 |}.

(** ** The specification's vocabulary *)

Section Vocabulary.
Context `{Extern}.

(** A condition's required headers are present in a request: every required
    pair has a request header of the same value whose name is equal under
    case folding. *)
Definition headersPresent (c : RouteCondition.t)
    (requestHeaders : map_string_string) : Prop :=
  ∀ name value,
    index (RouteCondition.HeaderMatch c) name = Some value →
    ∃ name', index requestHeaders name' = Some value
             ∧ strings.EqualFold name name' = true.
(** The source [respond] takes its response from. *)
Definition source (w : World) (ctx : fasthttp.RequestCtx) (route : Route.t)
    : string * map_string_string * Z :=
  match Server.checkConditions w (Route.Conditions route)
          (Server.extractHeaders ctx) with
  | Some condition =>
      (RouteCondition.GetResponseBody condition,
       RouteCondition.GetResponseHeaders condition,
       RouteCondition.GetResponseStatus condition)
  | None =>
      (Route.GetResponseBody route,
       Route.GetResponseHeaders route,
       Route.GetResponseStatus route)
  end.

End Vocabulary.


(** The entries of a map, in no order that matters. *)
Definition entries (m : map_string_string) : list (string * string) :=
  match m with
  | None => []
  | Some m => map_to_list m
  end.

(** Whether [Header.Set] takes a key for Content-Type. *)
Definition isContentType (key : string) : bool :=
  fasthttp.caseInsensitiveCompare "Content-Type" key.

(** The Content-Type slot after the pairs have been set in order: the value
    of the last Content-Type pair among them, or what it held before. *)
Definition contentTypeAfter (before : string)
    (entries : list (string * string)) : string :=
  fold_left (λ ct '(key, value), if isContentType key then value else ct)
    entries before.

(** The pairs that are not Content-Type, in order. *)
Definition otherHeaders (entries : list (string * string))
    : list (string * string) :=
  List.filter (λ '(key, _), negb (isContentType key)) entries.

(** The response made of a status, the headers of a source set in the
    given order, and a body, on a context nothing was written to. *)
Definition composed (req : fasthttp.Request) (status : Z)
    (entries : list (string * string)) (body : string) : fasthttp.RequestCtx :=
  {| fasthttp.Request_ := req;
     fasthttp.Response_ :=
       {| fasthttp.Header :=
            {| fasthttp.statusCode := status;
               fasthttp.contentType := contentTypeAfter "" entries;
               fasthttp.h := otherHeaders entries |};
          fasthttp.body := body |} |}.

(** ** Vocabulary for the rest of the code *)

(** Reference instances: strings of ASCII only never reach the first, and
    the second is a disk with one file, which holds a configuration with an
    empty address and two routes. *)
Definition asciiCase : ExternCase :=
  {| mapToLower := λ s, s; mapToUpper := λ s, s |}.

Definition users : Route.t :=
  {| Route.Path := "/api/users";
     Route.Method := "POST";
     Route.ResponseBody := "created";
     Route.ResponseHeader := None;
     Route.ResponseStatus := 201;
     Route.ResponseDump := false;
     Route.Conditions := [] |}.

Definition sampleConfig : ServerConfig.t :=
  {| ServerConfig.Address := "";
     ServerConfig.LogLevel := "DEBUG";
     ServerConfig.Routes := [hello; users] |}.

Definition oneFile : ExternFile :=
  {| ReadFile := λ path,
       if String.eqb path "config.yaml" then inl "routes"
       else inr "open: no such file or directory";
     Unmarshal := λ data,
       if String.eqb data "routes" then inl sampleConfig
       else inr "yaml: unmarshal errors" |}.

(** A route with its method in small letters, and a configuration that
    has it after two good routes. *)
Definition late : Route.t :=
  {| Route.Path := "/late";
     Route.Method := "get";
     Route.ResponseBody := "";
     Route.ResponseHeader := None;
     Route.ResponseStatus := 0;
     Route.ResponseDump := false;
     Route.Conditions := [] |}.

Definition lateConfig : ServerConfig.t :=
  {| ServerConfig.Address := ":8080";
     ServerConfig.LogLevel := "";
     ServerConfig.Routes := [hello; users; late; negativeRoute] |}.

(** A route [validateConfig] accepts: a path, and no method or one of the
    seven, in capitals. *)
Definition validRoute (r : Route.t) : Prop :=
  Route.Path r ≠ ""
  ∧ (Route.Method r = ""
     ∨ Route.Method r ∈ ["GET"; "POST"; "PUT"; "DELETE"; "PATCH"; "HEAD";
                         "OPTIONS"]).

(** Two strings are the same up to the case of their ASCII letters. *)
Definition sameUpToCase (a b : string) : Prop :=
  strings.lowerBytes a = strings.lowerBytes b.

(** A route fits a request: the path is the request's, byte for byte, and
    the method, GET when the route has none, is the request's under
    [EqualFold]. *)
Definition fits `{Extern} (route : Route.t) (path method : string) : Prop :=
  Route.Path route = path
  ∧ strings.EqualFold (Route.GetMethod route) method = true.

(** A header map has at most one key that is Content-Type up to case. *)
Definition oneContentType (m : map_string_string) : Prop :=
  ∀ k1 v1 k2 v2,
    index m k1 = Some v1 → index m k2 = Some v2 →
    isContentType k1 = true → isContentType k2 = true → k1 = k2.

(** A route that spells Content-Type in two ways. *)
Definition twoSpellings : Route.t :=
  {| Route.Path := "/two";
     Route.Method := "";
     Route.ResponseBody := "";
     Route.ResponseHeader :=
       Some {[ "Content-Type" := "text/html";
               "content-type" := "application/xml" ]};
     Route.ResponseStatus := 0;
     Route.ResponseDump := false;
     Route.Conditions := [] |}.

(** A header map has no two keys that are the same name up to case. *)
Definition distinctNames (m : map_string_string) : Prop :=
  ∀ k1 v1 k2 v2,
    index m k1 = Some v1 → index m k2 = Some v2 →
    fasthttp.caseInsensitiveCompare k1 k2 = true → k1 = k2.

(** The value a header name has after the pairs have been set in order,
    each one replacing what the name had: that of the last pair whose key
    is the name up to case. *)
Definition valueSet (name : string) (pairs : list (string * string))
    : option string :=
  fold_left (λ value '(key, v),
               if fasthttp.caseInsensitiveCompare name key then Some v
               else value)
    pairs None.

(** A route with two headers of different names, and one that spells one
    name in two ways. *)
Definition twoHeaders : Route.t :=
  {| Route.Path := "/headers";
     Route.Method := "";
     Route.ResponseBody := "";
     Route.ResponseHeader := Some {[ "X-Custom" := "a"; "X-Other" := "b" ]};
     Route.ResponseStatus := 0;
     Route.ResponseDump := false;
     Route.Conditions := [] |}.

Definition twoCases : Route.t :=
  {| Route.Path := "/cases";
     Route.Method := "";
     Route.ResponseBody := "";
     Route.ResponseHeader := Some {[ "X-Custom" := "a"; "x-custom" := "b" ]};
     Route.ResponseStatus := 0;
     Route.ResponseDump := false;
     Route.Conditions := [] |}.

(** A reference router: it keeps the registrations it took, and refuses a
    path without a leading slash and a second handler for a method and a
    path. *)
Definition strictRouter : ExternRouter :=
  {| Router := list (router.Method * string);
     New := [];
     Handle := λ m path _ r,
       if negb (String.prefix "/" path)
       then inr "path must begin with '/'"
       else if bool_decide ((m, path) ∈ r)
       then inr "a handler is already registered"
       else inl (r ++ [(m, path)]);
     SetNotFound := λ _ r, r |}.

(** A configuration [validateConfig] accepts, with a route twice. *)
Definition twiceConfig : ServerConfig.t :=
  {| ServerConfig.Address := ":8080";
     ServerConfig.LogLevel := "";
     ServerConfig.Routes := [users; hello; hello; secure] |}.

(** A route with its dump flag replaced. *)
Definition withDump (dump : bool) (r : Route.t) : Route.t :=
  {| Route.Path := Route.Path r;
     Route.Method := Route.Method r;
     Route.ResponseBody := Route.ResponseBody r;
     Route.ResponseHeader := Route.ResponseHeader r;
     Route.ResponseStatus := Route.ResponseStatus r;
     Route.ResponseDump := dump;
     Route.Conditions := Route.Conditions r |}.

(** Whether a pair has the given key. *)
Definition hasKey (k : string) (kv : string * string) : Prop := kv.1 = k.

(** ** Condition matching *)

Section Matching.
Context `{Extern}.

Lemma elem_of_range (w : World) (m : map_string_string) (k v : string) :
  (k, v) ∈ range w m ↔ index m k = Some v.
Proof.
  destruct m as [m|]; simpl.
  - by rewrite (rangeOrder_complete w m), elem_of_map_to_list.
  - split; [by intros ?%elem_of_nil | done].
Qed.

Lemma MatchesHeaders_headersPresent (w : World) (c : RouteCondition.t)
    (h : map_string_string) :
  RouteCondition.MatchesHeaders w c h = true ↔ headersPresent c h.
Proof.
  unfold RouteCondition.MatchesHeaders, headersPresent.
  rewrite forallb_forall. split.
  - intros Hall name value Hreq.
    apply elem_of_range with (w := w), list_elem_of_In, Hall in Hreq.
    apply existsb_exists in Hreq as [[name' value'] [Hin Hfit]].
    apply andb_true_iff in Hfit as [Hfold Heq].
    apply String.eqb_eq in Heq as ->.
    exists name'. split; [|done].
    by apply (elem_of_range w), list_elem_of_In.
  - intros Hall [name value] Hin.
    apply list_elem_of_In, elem_of_range, Hall in Hin as [name' [Hget Hfold]].
    apply existsb_exists. exists (name', value). split.
    + by apply list_elem_of_In, elem_of_range.
    + by rewrite Hfold, String.eqb_refl.
Qed.

Lemma checkConditions_Some (w : World) (conditions : list RouteCondition.t)
    (h : map_string_string) (c : RouteCondition.t) :
  Server.checkConditions w conditions h = Some c ↔
  ∃ before after,
    conditions = before ++ c :: after
    ∧ Forall (λ c', ¬ headersPresent c' h) before
    ∧ headersPresent c h.
Proof.
  induction conditions as [|c0 rest IH]; simpl.
  - split; [done|]. intros (before & after & Heq & _). by destruct before.
  - destruct (RouteCondition.MatchesHeaders w c0 h) eqn:Hm.
    + apply MatchesHeaders_headersPresent in Hm. split.
      * intros [= <-]. by exists [], rest.
      * intros ([|c1 before] & after & Heq & Hnone & Hc).
        -- by injection Heq as -> _.
        -- injection Heq as -> _. by apply Forall_cons_1 in Hnone as [? _].
    + assert (¬ headersPresent c0 h) as Hno.
      { rewrite <- MatchesHeaders_headersPresent. by rewrite Hm. }
      rewrite IH. split.
      * intros (before & after & -> & Hnone & Hc).
        exists (c0 :: before), after. by repeat split; [constructor|].
      * intros ([|c1 before] & after & Heq & Hnone & Hc).
        -- injection Heq as <- _. done.
        -- injection Heq as _ ->. apply Forall_cons_1 in Hnone as [_ ?].
           by exists before, after.
Qed.

End Matching.

(** ** Response composition *)

Section Composition.
Context `{Extern}.

Lemma isContentType_Content_Type : isContentType "Content-Type" = true.
Proof. reflexivity. Qed.

#[local] Opaque fasthttp.caseInsensitiveCompare.

Lemma fold_Header_Set (entries : list (string * string))
    (ctx : fasthttp.RequestCtx) :
  fold_left (λ ctx '(key, value), fasthttp.Header_Set key value ctx)
    entries ctx
  = fasthttp.withHeader (λ hd,
      {| fasthttp.statusCode := fasthttp.statusCode hd;
         fasthttp.contentType :=
           contentTypeAfter (fasthttp.contentType hd) entries;
         fasthttp.h := fasthttp.h hd ++ otherHeaders entries |}) ctx.
Proof.
  revert ctx. induction entries as [|[key value] rest IH]; intros ctx.
  - destruct ctx as [req [[code ct other] b]]. unfold fasthttp.withHeader.
    simpl. by rewrite app_nil_r.
  - cbn [fold_left]. rewrite IH.
    destruct ctx as [req [[code ct other] b]].
    unfold fasthttp.Header_Set, fasthttp.withHeader, contentTypeAfter,
      otherHeaders, isContentType.
    cbn. destruct (fasthttp.caseInsensitiveCompare "Content-Type" key); cbn.
    + done.
    + by rewrite <- app_assoc.
Qed.

(** The Content-Type that [Peek] reads is never empty: the check that
    follows the headers in [handleRoute] never sets a type of its own. *)
Lemma ContentType_not_empty (hd : fasthttp.ResponseHeader) :
  Nat.eqb (String.length (fasthttp.ContentType hd)) 0 = false.
Proof.
  unfold fasthttp.ContentType.
  destruct (String.eqb_spec (fasthttp.contentType hd) "") as [Heq|Hne].
  - reflexivity.
  - destruct (fasthttp.contentType hd); [done | reflexivity].
Qed.

Lemma respond_fresh (w : World) (req : fasthttp.Request) (route : Route.t) :
  Server.respond w (fasthttp.fresh req) route =
  let '(responseBody, responseHeaders, responseStatus) :=
    source w (fasthttp.fresh req) route in
  let plain :=
    composed req responseStatus (range w responseHeaders) responseBody in
  if Route.ResponseDump route
  then
    match json.MarshalIndent
            {| Headers := Server.extractHeaders (fasthttp.fresh req);
               QueryParameters :=
                 Server.extractQueryParameters (fasthttp.fresh req) |}
            "" "  " with
    | inl dumpJSON =>
        composed req responseStatus
          (range w responseHeaders ++ [("Content-Type", "application/json")])
          dumpJSON
    | inr _ => plain
    end
  else plain.
Proof.
  unfold Server.respond, source.
  destruct (Server.checkConditions _ _ _) as [c|]; cbv beta iota zeta;
    rewrite fold_Header_Set;
    unfold fasthttp.Header_Peek_ContentType;
    rewrite ContentType_not_empty;
    unfold Route.GetResponseDump; destruct (Route.ResponseDump route);
    try destruct (json.MarshalIndent _ _ _) as [dumpJSON|err];
    unfold composed, contentTypeAfter, otherHeaders;
    rewrite ?fold_left_app, ?List.filter_app;
    unfold fasthttp.Header_Set, fasthttp.SetStatusCode, fasthttp.WriteString,
      fasthttp.withHeader, fasthttp.fresh;
    cbn [fasthttp.Request_ fasthttp.Response_ fasthttp.Header fasthttp.body
         fasthttp.statusCode fasthttp.contentType fasthttp.h
         fold_left List.filter app String.append];
    change (fasthttp.caseInsensitiveCompare "Content-Type" "Content-Type")
      with (isContentType "Content-Type");
    rewrite ?isContentType_Content_Type; cbn [negb];
    by rewrite ?app_nil_r.
Qed.
Lemma otherHeaders_all (l : list (string * string)) :
  (∀ key value, (key, value) ∈ l → isContentType key = false) →
  otherHeaders l = l ∧ ∀ ct, contentTypeAfter ct l = ct.
Proof.
  unfold otherHeaders, contentTypeAfter.
  induction l as [|[key value] rest IH]; intros Hno; [done|].
  cbn [List.filter fold_left].
  rewrite (Hno key value) by apply list_elem_of_here. cbn [negb].
  destruct IH as [IHo IHc].
  { intros k v Hin. apply (Hno k v). by apply list_elem_of_further. }
  by rewrite IHo.
Qed.

Lemma range_entries (w : World) (m : map_string_string) :
  range w m ≡ₚ entries m.
Proof. destruct m; [apply rangeOrder_complete | done]. Qed.

Lemma range_GetResponseHeaders (w : World) (m : map_string_string) :
  range w (match m with None => Some ∅ | Some m => Some m end) ≡ₚ entries m.
Proof.
  destruct m as [m|]; [apply rangeOrder_complete|].
  simpl. by rewrite rangeOrder_complete, map_to_list_empty.
Qed.

#[local] Transparent fasthttp.caseInsensitiveCompare.
End Composition.

(** ** The delay parameter *)

Section Delay.
Context `{Extern}.

Lemma handleRoute_error (w : World) (ctx : fasthttp.RequestCtx)
    (route : Route.t) (err : string) :
  Server.parseDelayParam ctx = inr err →
  Server.handleRoute w ctx route =
  (fasthttp.WriteString ("Invalid delay parameter: " +:+ err)
     (fasthttp.SetContentType "text/plain"
        (fasthttp.SetStatusCode fasthttp.StatusBadRequest ctx)), []).
Proof. intros Herr. unfold Server.handleRoute. by rewrite Herr. Qed.

Lemma handleRoute_completed (w : World) (ctx : fasthttp.RequestCtx)
    (route : Route.t) (delay : time.Duration) :
  Server.parseDelayParam ctx = inl delay →
  (0 < delay → selected w = TimerC) →
  Server.handleRoute w ctx route =
  (Server.respond w ctx route,
   if 0 <? delay then [Server.NewTimer delay; Server.Stop] else []).
Proof.
  intros Hok Hsel. unfold Server.handleRoute, Server.sleepWithCancellation.
  rewrite Hok. destruct (Z.ltb_spec 0 delay) as [Hpos|Hle]; [|done].
  rewrite (Hsel Hpos). by destruct (Z.leb_spec delay 0); [lia|].
Qed.

(** The three ways out of [handleRoute]: the bad request, the abandoned
    request, and the composed response. *)
Lemma handleRoute_outcomes (w : World) (ctx : fasthttp.RequestCtx)
    (route : Route.t) :
  (∃ err,
     Server.parseDelayParam ctx = inr err
     ∧ Server.handleRoute w ctx route
       = (fasthttp.WriteString ("Invalid delay parameter: " +:+ err)
            (fasthttp.SetContentType "text/plain"
               (fasthttp.SetStatusCode fasthttp.StatusBadRequest ctx)), []))
  ∨ (∃ delay,
       Server.parseDelayParam ctx = inl delay
       ∧ 0 < delay ∧ selected w = ShutdownChan
       ∧ Server.handleRoute w ctx route
         = (ctx, [Server.NewTimer delay; Server.Stop]))
  ∨ (∃ delay,
       Server.parseDelayParam ctx = inl delay
       ∧ (0 < delay → selected w = TimerC)
       ∧ Server.handleRoute w ctx route
         = (Server.respond w ctx route,
            if 0 <? delay then [Server.NewTimer delay; Server.Stop] else [])).
Proof.
  destruct (Server.parseDelayParam ctx) as [delay|err] eqn:Hparse.
  - destruct (Z.ltb_spec 0 delay) as [Hpos|Hle].
    + destruct (selected w) eqn:Hsel.
      * right; right. exists delay. split; [done|]. split; [done|].
        rewrite (handleRoute_completed w ctx route delay Hparse (λ _, Hsel)).
        by destruct (Z.ltb_spec 0 delay); [|lia].
      * right; left. exists delay. repeat (split; [done|]).
        unfold Server.handleRoute, Server.sleepWithCancellation.
        rewrite Hparse, Hsel.
        destruct (Z.ltb_spec 0 delay); [|lia].
        by destruct (Z.leb_spec delay 0); [lia|].
    + right; right. exists delay. split; [done|]. split; [lia|].
      rewrite (handleRoute_completed w ctx route delay Hparse); [|lia].
      by destruct (Z.ltb_spec 0 delay); [lia|].
  - left. exists err. split; [done|]. by apply handleRoute_error.
Qed.

(** Every timer the handler makes is released before it returns. *)
Lemma handleRoute_releases_timers (w : World) (ctx : fasthttp.RequestCtx)
    (route : Route.t) :
  snd (Server.handleRoute w ctx route) = []
  ∨ ∃ delay, 0 < delay
             ∧ snd (Server.handleRoute w ctx route)
               = [Server.NewTimer delay; Server.Stop].
Proof.
  destruct (handleRoute_outcomes w ctx route)
    as [(err & _ & ->) | [(delay & _ & Hpos & _ & ->) | (delay & _ & _ & ->)]].
  - by left.
  - right. by exists delay.
  - cbn [snd]. destruct (Z.ltb_spec 0 delay); [right; by exists delay | by left].
Qed.
End Delay.

(** ** The duration parser always answers *)

Section ParseDuration.

Lemma leadingInt_length (s : string) (x v : Z) (rest : string) :
  time.leadingInt x s = Some (v, rest) →
  (String.length rest ≤ String.length s)%nat.
Proof.
  revert x. induction s as [|c s IH]; intros x; simpl.
  - by intros [= _ <-].
  - destruct (negb (time.isDigit (byte c))); [by intros [= _ <-]|].
    destruct (2 ^ 63 / 10 <? x); [done|].
    destruct (2 ^ 63 <? x * 10 + byte c - 48); [done|].
    intros Hrest%IH. lia.
Qed.

Lemma leadingFraction_length (s : string) (x scale : Z) (overflow : bool) :
  (String.length (time.leadingFraction x scale overflow s).2
   ≤ String.length s)%nat.
Proof.
  revert x scale overflow. induction s as [|c s IH]; intros x scale overflow.
  - done.
  - simpl. destruct (negb (time.isDigit (byte c))); [done|].
    destruct overflow; [by etrans; [apply IH|simpl; lia]|].
    destruct ((2 ^ 63 - 1) / 10 <? x); [by etrans; [apply IH|simpl; lia]|].
    destruct (2 ^ 63 <? x * 10 + byte c - 48);
      by etrans; [apply IH|simpl; lia].
Qed.

Lemma splitUnit_length (s : string) :
  String.length s
  = (String.length (time.splitUnit s).1
     + String.length (time.splitUnit s).2)%nat.
Proof.
  induction s as [|c s IH]; [done|]. simpl.
  destruct ((byte c =? 46) || time.isDigit (byte c)); [done|].
  destruct (time.splitUnit s) as [u rest]. simpl in *. lia.
Qed.

(** The fuel [ParseDuration] gives its loop is enough: the loop ends with a
    duration or with an error of the parser. *)
Lemma parseLoop_answers (fuel : nat) (orig s : string) (d : Z) :
  (String.length s ≤ fuel)%nat →
  is_Some (time.parseLoop fuel orig s d).
Proof.
  revert s d. induction fuel as [|fuel IH]; intros s d Hlen.
  - destruct s; [by eexists | simpl in Hlen; lia].
  - destruct s as [|c s']; [by eexists|].
    cbn [time.parseLoop].
    destruct (negb _); [by eexists|].
    destruct (time.leadingInt 0 (String c s')) as [[v s1]|] eqn:Hint;
      [|by eexists].
    apply leadingInt_length in Hint.
    assert (∃ f scale s2 post,
              (match s1 with
               | String "." r =>
                   let '(f, scale, r') := time.leadingFraction 0 1 false r in
                   (f, scale, r',
                    negb (Nat.eqb (String.length r) (String.length r')))
               | _ => (0, 1, s1, false)
               end) = (f, scale, s2, post)
              ∧ (String.length s2 ≤ String.length s1)%nat)
      as (f & scale & s2 & post & -> & Hs2).
    { destruct s1 as [|a r]; [by eexists _, _, _, _|].
      destruct (Ascii.eqb_spec a ".") as [->|Hne].
      - pose proof (leadingFraction_length r 0 1 false) as Hfr.
        destruct (time.leadingFraction 0 1 false r) as [[f scale] r'].
        eexists _, _, _, _. split; [done|]. simpl in *. lia.
      - exists 0, 1, (String a r), false. split; [|done].
        destruct a as [[] [] [] [] [] [] [] []]; done. }
    destruct (_ && _); [by eexists|].
    pose proof (splitUnit_length s2) as Hsplit.
    destruct (time.splitUnit s2) as [u s3]. simpl in Hsplit.
    destruct (String.eqb_spec u "") as [->|Hu]; [by eexists|].
    destruct (time.unitMap u) as [unit|]; [|by eexists].
    destruct (2 ^ 63 / unit <? v); [by eexists|].
    destruct (_ && _); [by eexists|].
    destruct (2 ^ 63 <? _); [by eexists|].
    apply IH. destruct u; [done|]. simpl in *. lia.
Qed.

(** [ParseDuration] never falls back on the answer for spent fuel. *)
Lemma ParseDuration_fuel (orig s : string) :
  is_Some (time.parseLoop (String.length s) orig s 0).
Proof. by apply parseLoop_answers. Qed.
End ParseDuration.

(** ** The delay parameter, clause by clause *)

Lemma wrap64_in_range (z : Z) :
  minInt64 ≤ z ≤ maxInt64 → wrap64 z = z.
Proof.
  unfold wrap64, minInt64, maxInt64. intros Hz.
  rewrite Z.mod_small; lia.
Qed.

(** [parseDelayParam]: nothing for an empty parameter; else what the
    duration parser reads; else the integer the parser of integers reads,
    times a millisecond in 64 bits; else the error of the duration parser. *)
Lemma parseDelayParam_clauses (req : fasthttp.Request) :
  let delayStr := fasthttp.Peek (fasthttp.QueryArgs req) "delay" in
  let answer := Server.parseDelayParam (fasthttp.fresh req) in
  (delayStr = "" → answer = inl 0)
  ∧ (∀ d, delayStr ≠ "" → time.ParseDuration delayStr = inl d →
          answer = inl d)
  ∧ (∀ err ms, delayStr ≠ "" → time.ParseDuration delayStr = inr err →
               strconv.Atoi delayStr = Some ms →
               answer = inl (wrap64 (ms * time.Millisecond))
               ∧ (minInt64 ≤ ms * time.Millisecond ≤ maxInt64 →
                  answer = inl (ms * time.Millisecond)))
  ∧ (∀ err, delayStr ≠ "" → time.ParseDuration delayStr = inr err →
            strconv.Atoi delayStr = None →
            answer = inr err).
Proof.
  intros delayStr answer. subst answer. unfold Server.parseDelayParam.
  cbn [fasthttp.fresh fasthttp.Request_]. fold delayStr.
  destruct (String.eqb_spec delayStr "") as [Hempty|Hfull].
  - by repeat split.
  - split; [done|]. split; [by intros d _ ->|].
    split.
    + intros err ms _ -> ->. split; [done|].
      intros Hrange. by rewrite wrap64_in_range.
    + by intros err _ -> ->.
Qed.

(** ** The examples of the specification and of the tests *)

(** Header names are compared without regard to case, whatever the Unicode
    tables say: ASCII strings never reach them. *)
Example EqualFold_header_name `{Extern} :
  strings.EqualFold "X-API-Key" "x-api-key" = true
  ∧ strings.EqualFold "X-API-Key" "x-api-kez" = false
  ∧ strings.EqualFold "X-API-Key" "x-api-key2" = false.
Proof. by repeat split. Qed.

(** [{"X-API-Key": "secret"}] matches the request header
    [x-api-key: secret] and not [x-api-key: Secret], in any world. *)
Example MatchesHeaders_name_folds_value_does_not `{Extern} (w : World)
    (body : string) (status : Z) :
  let c :=
    {| RouteCondition.HeaderMatch := Some {[ "X-API-Key" := "secret" ]};
       RouteCondition.ResponseBody := body;
       RouteCondition.ResponseHeader := None;
       RouteCondition.ResponseStatus := status |} in
  RouteCondition.MatchesHeaders w c (Some {[ "x-api-key" := "secret" ]}) = true
  ∧ RouteCondition.MatchesHeaders w c (Some {[ "x-api-key" := "Secret" ]})
    = false.
Proof.
  intros c. split.
  - apply MatchesHeaders_headersPresent. intros name value.
    cbn [index RouteCondition.HeaderMatch c].
    intros [<- <-]%lookup_singleton_Some.
    exists "x-api-key". split; [apply lookup_singleton_eq | reflexivity].
  - apply not_true_is_false. intros Hm%MatchesHeaders_headersPresent.
    destruct (Hm "X-API-Key" "secret") as (name' & Hget & _).
    { apply lookup_singleton_eq. }
    cbn [index] in Hget. by apply lookup_singleton_Some in Hget as [_ ?].
Qed.

(** [ParseDuration] on entries of the table of Go's own tests: fractions
    rounded as float64 does, the two ends of the range, the overflows, and
    the three kinds of error. *)
Example ParseDuration_table :
  time.ParseDuration "1h2m3s4ms5us6ns" = inl 3723004005006
  ∧ time.ParseDuration "0.3333333333333333333h" = inl (20 * time.Minute)
  ∧ time.ParseDuration "0.830103483285477580700h" = inl 2988372539827
  ∧ time.ParseDuration "9007199254740993ns" = inl (2 ^ 53 + 1)
  ∧ time.ParseDuration "9223372036854775.807us" = inl maxInt64
  ∧ time.ParseDuration "-9223372036854775.808us" = inl minInt64
  ∧ time.ParseDuration ("12" +:+ time.micro_sign +:+ "s")
    = inl (12 * time.Microsecond)
  ∧ time.ParseDuration "+0" = inl 0
  ∧ time.ParseDuration "9223372036854775808ns"
    = inr ("time: invalid duration " +:+ json.quoted "9223372036854775808ns")
  ∧ time.ParseDuration "3000000h"
    = inr ("time: invalid duration " +:+ json.quoted "3000000h")
  ∧ time.ParseDuration "3"
    = inr ("time: missing unit in duration " +:+ json.quoted "3")
  ∧ time.ParseDuration "1d"
    = inr ("time: unknown unit " +:+ json.quoted "d" +:+ " in duration "
           +:+ json.quoted "1d")
  ∧ time.ParseDuration "" = inr ("time: invalid duration " +:+ json.quoted "").
Proof. repeat split; vm_compute; reflexivity. Qed.

(** The table of [TestServer_parseDelayParam]. *)
Example parseDelayParam_table :
  let parse delay :=
    Server.parseDelayParam (fasthttp.fresh (requestWith [] [("delay", delay)])) in
  parse "" = inl 0
  ∧ parse "10ms" = inl (10 * time.Millisecond)
  ∧ parse "2s" = inl (2 * time.Second)
  ∧ parse "500us" = inl (500 * time.Microsecond)
  ∧ parse "100ns" = inl (100 * time.Nanosecond)
  ∧ parse "250" = inl (250 * time.Millisecond)
  ∧ parse "invalid"
    = inr ("time: invalid duration " +:+ json.quoted "invalid")
  ∧ parse "-100ms" = inl (-100 * time.Millisecond)
  ∧ parse "1h2m3.5s" = inl (time.Hour + 2 * time.Minute + 3500 * time.Millisecond)
  ∧ Server.parseDelayParam (fasthttp.fresh (requestWith [] [])) = inl 0.
Proof. repeat split; vm_compute; reflexivity. Qed.

(** The secured route of the specification: the header opens it, and
    without the header the route's own 401 is the answer; visiting the maps
    the other way round changes nothing. *)
Example secure_route_scenario :
  let run w headers :=
    fst (@Server.handleRoute asciiExtern w
           (fasthttp.fresh (requestWith headers [])) secure) in
  (fasthttp.StatusCode (run (world TimerC) [("Authorization", "Bearer T")]),
   fasthttp.Body (run (world TimerC) [("Authorization", "Bearer T")]))
  = (200, "ok")
  ∧ (fasthttp.StatusCode (run (world TimerC) [("Accept", "*/*")]),
     fasthttp.Body (run (world TimerC) [("Accept", "*/*")]))
    = (401, "Unauthorized")
  ∧ run (backwards TimerC) [("Authorization", "Bearer T"); ("Accept", "*/*")]
    = run (world TimerC) [("Authorization", "Bearer T"); ("Accept", "*/*")].
Proof. repeat split; vm_compute; reflexivity. Qed.

(** The default Content-Type that [TestServer_handleRoute] reads back. *)
Example default_content_type :
  let answer :=
    fst (@Server.handleRoute asciiExtern (world TimerC)
           (fasthttp.fresh (requestWith [] [])) hello) in
  fasthttp.Header_Peek_ContentType answer = "text/plain; charset=utf-8"
  ∧ fasthttp.Body answer = "Hello, World!"
  ∧ fasthttp.StatusCode answer = 200.
Proof. repeat split; vm_compute; reflexivity. Qed.

(** ** The properties of the specification *)



(** C2: when the delay parameter is there and neither the duration parse nor
    the integer parse takes it, the handler answers 400 with Content-Type
    text/plain and the body "Invalid delay parameter: " followed by the
    message of the duration parser, and returns: no timer is made, and the
    answer is the same whatever the route and its conditions are. *)
Theorem C2_invalid_delay_is_bad_request `{Extern} (w : World)
    (req : fasthttp.Request) (route : Route.t) (delayStr err : string) :
  fasthttp.Peek (fasthttp.QueryArgs req) "delay" = delayStr →
  delayStr ≠ "" →
  time.ParseDuration delayStr = inr err →
  strconv.Atoi delayStr = None →
  let answer :=
    {| fasthttp.Request_ := req;
       fasthttp.Response_ :=
         {| fasthttp.Header :=
              {| fasthttp.statusCode := 400;
                 fasthttp.contentType := "text/plain";
                 fasthttp.h := [] |};
            fasthttp.body := "Invalid delay parameter: " +:+ err |} |} in
  Server.handleRoute w (fasthttp.fresh req) route = (answer, [])
  ∧ fasthttp.StatusCode answer = 400
  ∧ fasthttp.Header_Peek_ContentType answer = "text/plain"
  ∧ fasthttp.Body answer = "Invalid delay parameter: " +:+ err.
Proof.
  intros Hpeek Hne Hdur Hint answer.
  assert (Server.parseDelayParam (fasthttp.fresh req) = inr err) as Herr.
  { unfold Server.parseDelayParam. cbn [fasthttp.fresh fasthttp.Request_].
    rewrite Hpeek. destruct (String.eqb_spec delayStr ""); [done|].
    by rewrite Hdur, Hint. }
  split; [|done].
  by rewrite (handleRoute_error w _ route err Herr).
Qed.

(** C2 on the request [?delay=invalid] of the README. *)
Lemma C2_invalid_delay_is_bad_request_witness :
  fasthttp.Body
    (fst (@Server.handleRoute asciiExtern (world TimerC)
            (fasthttp.fresh (requestWith [] [("delay", "invalid")])) secure))
  = "Invalid delay parameter: time: invalid duration "
    +:+ json.quoted "invalid".
Proof.
  pose proof (@C2_invalid_delay_is_bad_request asciiExtern (world TimerC)
                (requestWith [] [("delay", "invalid")]) secure "invalid"
                ("time: invalid duration " +:+ json.quoted "invalid")
                eq_refl ltac:(discriminate) eq_refl eq_refl) as [Hrun _].
  by rewrite Hrun.
Defined.



(** C4: when the delay is positive and the shutdown signal wins the race
    against the timer, the sleep reports that it was cancelled and the
    handler returns the context as it got it: no status code, no header and
    no body is written. *)
Theorem C4_cancelled_sleep_writes_nothing `{Extern} (w : World)
    (ctx : fasthttp.RequestCtx) (route : Route.t) (delay : time.Duration) :
  Server.parseDelayParam ctx = inl delay →
  0 < delay →
  selected w = ShutdownChan →
  Server.sleepWithCancellation w delay
  = (false, [Server.NewTimer delay; Server.Stop])
  ∧ Server.handleRoute w ctx route
    = (ctx, [Server.NewTimer delay; Server.Stop]).
Proof.
  intros Hok Hpos Hsel.
  assert (Server.sleepWithCancellation w delay
          = (false, [Server.NewTimer delay; Server.Stop])) as Hsleep.
  { unfold Server.sleepWithCancellation. rewrite Hsel.
    by destruct (Z.leb_spec delay 0); [lia|]. }
  split; [done|].
  unfold Server.handleRoute. rewrite Hok.
  destruct (Z.ltb_spec 0 delay); [|lia]. by rewrite Hsleep.
Qed.

(** C4 on a request for a delay of 200ms that shutdown cuts short. *)
Lemma C4_cancelled_sleep_writes_nothing_witness :
  @Server.handleRoute asciiExtern (world ShutdownChan)
    (fasthttp.fresh (requestWith [] [("delay", "200ms")])) hello
  = (fasthttp.fresh (requestWith [] [("delay", "200ms")]),
     [Server.NewTimer 200000000; Server.Stop]).
Proof.
  apply (@C4_cancelled_sleep_writes_nothing asciiExtern (world ShutdownChan)
           (fasthttp.fresh (requestWith [] [("delay", "200ms")])) hello
           200000000); [reflexivity | lia | reflexivity].
Defined.

(** C5 at the delay parameter [9223372036855]: the duration parser refuses
    it for want of a unit, the integer parser reads it, and the product
    with a millisecond leaves the 64 bits of a duration: the handler gets a
    negative duration instead of that many milliseconds. *)
Theorem C5_integer_fallback_wraps :
  strconv.Atoi "9223372036855" = Some 9223372036855
  ∧ time.ParseDuration "9223372036855"
    = inr ("time: missing unit in duration " +:+ json.quoted "9223372036855")
  ∧ Server.parseDelayParam
      (fasthttp.fresh (requestWith [] [("delay", "9223372036855")]))
    = inl (-9223372036854551616)
  ∧ 9223372036855 * time.Millisecond > maxInt64.
Proof. repeat split; vm_compute; reflexivity. Qed.

(** C6, as the code has it: the status getters of a route and of a condition
    return 200 for a configured status of zero, and any other configured
    status, a negative one included, as it is. *)
Theorem C6_zero_status_defaults (r : Route.t) (c : RouteCondition.t) :
  (Route.ResponseStatus r = 0 → Route.GetResponseStatus r = 200)
  ∧ (RouteCondition.ResponseStatus c = 0 →
     RouteCondition.GetResponseStatus c = 200)
  ∧ (Route.ResponseStatus r ≠ 0 →
     Route.GetResponseStatus r = Route.ResponseStatus r)
  ∧ (RouteCondition.ResponseStatus c ≠ 0 →
     RouteCondition.GetResponseStatus c = RouteCondition.ResponseStatus c).
Proof.
  unfold Route.GetResponseStatus, RouteCondition.GetResponseStatus.
  repeat split; intros Hs.
  - by rewrite Hs.
  - by rewrite Hs.
  - by destruct (Z.eqb_spec (Route.ResponseStatus r) 0).
  - by destruct (Z.eqb_spec (RouteCondition.ResponseStatus c) 0).
Qed.

(** C6 on a route and a condition configured with status 0. *)
Lemma C6_zero_status_defaults_witness :
  Route.GetResponseStatus hello = 200
  ∧ RouteCondition.GetResponseStatus
      {| RouteCondition.HeaderMatch := None;
         RouteCondition.ResponseBody := "";
         RouteCondition.ResponseHeader := None;
         RouteCondition.ResponseStatus := 0 |} = 200.
Proof.
  split.
  - by apply (C6_zero_status_defaults hello silent).
  - by apply (C6_zero_status_defaults hello
                {| RouteCondition.HeaderMatch := None;
                   RouteCondition.ResponseBody := "";
                   RouteCondition.ResponseHeader := None;
                   RouteCondition.ResponseStatus := 0 |}).
Defined.

(** C6 as stated fails on a negative status: the getters hand back -1. *)
Lemma C6_negative_status_kept :
  Route.ResponseStatus negativeRoute ≤ 0
  ∧ Route.GetResponseStatus negativeRoute = -1
  ∧ RouteCondition.ResponseStatus negativeCondition ≤ 0
  ∧ RouteCondition.GetResponseStatus negativeCondition = -1
  ∧ -1 ≠ 200.
Proof. repeat split; (reflexivity || (cbn; lia)). Qed.

(** C7: for a duration of zero or less the sleep reports that it completed
    without making a timer or waiting, whichever case of the race would
    fire, and a request with such a delay goes on to matching and
    composition: it gets the response that the route gives. *)
Theorem C7_nonpositive_delay_completes `{Extern} (w : World)
    (delay : time.Duration) :
  delay ≤ 0 →
  Server.sleepWithCancellation w delay = (true, [])
  ∧ ∀ ctx route,
      Server.parseDelayParam ctx = inl delay →
      Server.handleRoute w ctx route = (Server.respond w ctx route, []).
Proof.
  intros Hle. split.
  - unfold Server.sleepWithCancellation.
    by destruct (Z.leb_spec delay 0); [|lia].
  - intros ctx route Hok.
    rewrite (handleRoute_completed w ctx route delay Hok); [|lia].
    by destruct (Z.ltb_spec 0 delay); [lia|].
Qed.

(** C7 on the request [?delay=-100ms], with shutdown under way. *)
Lemma C7_nonpositive_delay_completes_witness :
  fasthttp.Body
    (fst (@Server.handleRoute asciiExtern (world ShutdownChan)
            (fasthttp.fresh (requestWith [] [("delay", "-100ms")])) hello))
  = "Hello, World!".
Proof.
  pose proof (@C7_nonpositive_delay_completes asciiExtern
                (world ShutdownChan) (-100000000) ltac:(lia)) as [_ Hrun].
  rewrite (Hrun (fasthttp.fresh (requestWith [] [("delay", "-100ms")]))
             hello eq_refl).
  reflexivity.
Defined.

(** C8, as the code has it: on a route without conditions and without the
    dump flag, composition gives the route's own defaults for any request:
    the route's body, the route's status with 200 for zero, and the route's
    headers, each handed to the response as it is; when none of them is a
    Content-Type, the response keeps the plain-text default type.  This is
    the response of every request whose delay parameter is valid or absent
    and whose sleep, if any, runs to its end. *)
Theorem C8_route_defaults `{Extern} (w : World) (req : fasthttp.Request)
    (route : Route.t) :
  Route.Conditions route = [] →
  Route.ResponseDump route = false →
  let answer := Server.respond w (fasthttp.fresh req) route in
  let headers := range w (Route.GetResponseHeaders route) in
  answer = composed req (Route.GetResponseStatus route) headers
             (Route.ResponseBody route)
  ∧ headers ≡ₚ entries (Route.ResponseHeader route)
  ∧ fasthttp.Body answer = Route.ResponseBody route
  ∧ (Route.ResponseStatus route = 0 → fasthttp.StatusCode answer = 200)
  ∧ (Route.ResponseStatus route ≠ 0 →
     fasthttp.StatusCode answer = Route.ResponseStatus route)
  ∧ ((∀ key value, (key, value) ∈ headers → isContentType key = false) →
     fasthttp.h (fasthttp.Header (fasthttp.Response_ answer)) = headers
     ∧ fasthttp.Header_Peek_ContentType answer = "text/plain; charset=utf-8")
  ∧ ∀ delay,
      Server.parseDelayParam (fasthttp.fresh req) = inl delay →
      (0 < delay → selected w = TimerC) →
      fst (Server.handleRoute w (fasthttp.fresh req) route) = answer.
Proof.
  intros Hnil Hdump answer headers. subst answer headers.
  rewrite respond_fresh, Hdump. unfold source. rewrite Hnil.
  cbn [Server.checkConditions]. unfold Route.GetResponseBody.
  split; [done|].
  split; [apply range_GetResponseHeaders|].
  split; [done|].
  unfold composed, fasthttp.StatusCode, fasthttp.Header_Peek_ContentType,
    fasthttp.ContentType, Route.GetResponseStatus.
  cbn [fasthttp.Response_ fasthttp.Header fasthttp.statusCode
       fasthttp.contentType fasthttp.h].
  split; [by intros -> |].
  split.
  { intros Hne%Z.eqb_neq. rewrite Hne. cbv iota. by rewrite Hne. }
  split.
  { intros Hno. apply otherHeaders_all in Hno as [-> Hct].
    by rewrite Hct. }
  intros delay Hok Hsel.
  rewrite (handleRoute_completed w _ route delay Hok Hsel). cbn [fst].
  rewrite respond_fresh, Hdump. unfold source. by rewrite Hnil.
Qed.

(** C8 on the route [/hello]. *)
Lemma C8_route_defaults_witness :
  fst (@Server.handleRoute asciiExtern (world TimerC)
         (fasthttp.fresh (requestWith [] [("delay", "10ms")])) hello)
  = {| fasthttp.Request_ := requestWith [] [("delay", "10ms")];
       fasthttp.Response_ :=
         {| fasthttp.Header :=
              {| fasthttp.statusCode := 200;
                 fasthttp.contentType := "";
                 fasthttp.h := [("X-Custom", "custom-value")] |};
            fasthttp.body := "Hello, World!" |} |}.
Proof.
  pose proof (@C8_route_defaults asciiExtern (world TimerC)
                (requestWith [] [("delay", "10ms")]) hello
                eq_refl eq_refl) as (Hanswer & _ & _ & _ & _ & _ & Hrun).
  rewrite (Hrun 10000000 eq_refl (λ _, eq_refl)), Hanswer.
  vm_compute. reflexivity.
Defined.

(** C8 as stated fails on a route with the dump flag: without conditions,
    and with no delay asked for, the body is the dump and not the route's. *)
Lemma C8_dump_route_differs :
  Route.Conditions helloDump = []
  ∧ Server.parseDelayParam (fasthttp.fresh (requestWith [] [])) = inl 0
  ∧ fasthttp.Body
      (fst (@Server.handleRoute asciiExtern (world TimerC)
              (fasthttp.fresh (requestWith [] [])) helloDump))
    = "{" +:+ json.newline
      +:+ "  " +:+ json.quoted "headers" +:+ ": {}," +:+ json.newline
      +:+ "  " +:+ json.quoted "query_parameters" +:+ ": {}"
      +:+ json.newline +:+ "}"
  ∧ Route.GetResponseBody helloDump = "Hello, World!"
  ∧ fasthttp.Body
      (fst (@Server.handleRoute asciiExtern (world TimerC)
              (fasthttp.fresh (requestWith [] [])) helloDump))
    ≠ Route.GetResponseBody helloDump.
Proof.
  split; [reflexivity|]. split; [reflexivity|].
  split; [vm_compute; reflexivity|]. split; [reflexivity|].
  intros Heq. vm_compute in Heq. discriminate Heq.
Qed.

(** C9: the outcome of [MatchesHeaders] is a function of the condition and
    of the request headers alone: whatever the order in which the two maps
    are visited, in this run or another, the boolean is the same. *)
Theorem C9_matching_independent_of_order `{Extern} (w1 w2 : World)
    (c : RouteCondition.t) (requestHeaders : map_string_string) :
  RouteCondition.MatchesHeaders w1 c requestHeaders
  = RouteCondition.MatchesHeaders w2 c requestHeaders.
Proof.
  apply Bool.eq_iff_eq_true.
  by rewrite !MatchesHeaders_headersPresent.
Qed.

(** C10, as the code has it: on a route without the dump flag, when a
    condition is the first whose required headers are present, composition
    takes the body, the headers and the status from that condition and
    merges in nothing of the route's defaults: an empty override body gives
    an empty body, and a nil override-header map gives no header besides the
    default Content-Type.  This is the response of every request whose
    delay is over. *)
Theorem C10_condition_replaces_defaults `{Extern} (w : World)
    (req : fasthttp.Request) (route : Route.t)
    (before after : list RouteCondition.t) (c : RouteCondition.t) :
  Route.Conditions route = before ++ c :: after →
  Forall (λ c', ¬ headersPresent c'
                    (Server.extractHeaders (fasthttp.fresh req))) before →
  headersPresent c (Server.extractHeaders (fasthttp.fresh req)) →
  Route.ResponseDump route = false →
  let answer := Server.respond w (fasthttp.fresh req) route in
  let headers := range w (RouteCondition.GetResponseHeaders c) in
  answer = composed req (RouteCondition.GetResponseStatus c) headers
             (RouteCondition.ResponseBody c)
  ∧ headers ≡ₚ entries (RouteCondition.ResponseHeader c)
  ∧ (RouteCondition.ResponseBody c = "" → fasthttp.Body answer = "")
  ∧ (RouteCondition.ResponseHeader c = None →
     fasthttp.h (fasthttp.Header (fasthttp.Response_ answer)) = []
     ∧ fasthttp.Header_Peek_ContentType answer = "text/plain; charset=utf-8")
  ∧ ∀ delay,
      Server.parseDelayParam (fasthttp.fresh req) = inl delay →
      (0 < delay → selected w = TimerC) →
      fst (Server.handleRoute w (fasthttp.fresh req) route) = answer.
Proof.
  intros Hconds Hbefore Hc Hdump answer headers.
  subst answer headers.
  assert (Server.checkConditions w (Route.Conditions route)
            (Server.extractHeaders (fasthttp.fresh req)) = Some c) as Hfirst.
  { apply checkConditions_Some. by exists before, after. }
  split; [|split; [|split; [|split]]].
  5: { intros delay Hok Hsel.
       by rewrite (handleRoute_completed w _ route delay Hok Hsel). }
  all: rewrite ?respond_fresh, ?Hdump; unfold source; rewrite ?Hfirst.
  all: unfold RouteCondition.GetResponseBody.
  - done.
  - apply range_GetResponseHeaders.
  - by intros ->.
  - intros Hnil.
    pose proof (range_GetResponseHeaders w (RouteCondition.ResponseHeader c))
      as Hperm.
    rewrite Hnil in Hperm. apply Permutation_nil_r in Hperm.
    unfold RouteCondition.GetResponseHeaders. rewrite Hnil, Hperm.
    by split.
Qed.

(** C10 on a route whose condition overrides with an empty body and no
    headers. *)
Lemma C10_condition_replaces_defaults_witness :
  fst (@Server.handleRoute asciiExtern (world TimerC)
         (fasthttp.fresh (requestWith [] [])) (quiet false))
  = {| fasthttp.Request_ := requestWith [] [];
       fasthttp.Response_ :=
         {| fasthttp.Header :=
              {| fasthttp.statusCode := 204;
                 fasthttp.contentType := "";
                 fasthttp.h := [] |};
            fasthttp.body := "" |} |}.
Proof.
  pose proof (@C10_condition_replaces_defaults asciiExtern (world TimerC)
                (requestWith [] []) (quiet false) [] [] silent
                eq_refl (Forall_nil_2 _) ltac:(by intros name value)
                eq_refl) as (Hanswer & _ & _ & _ & Hrun).
  rewrite (Hrun 0 eq_refl ltac:(lia)), Hanswer. vm_compute. reflexivity.
Defined.

(** C10 as stated fails on a route with the dump flag: the matched
    condition overrides with an empty body, and the body is the dump. *)
Lemma C10_dump_route_differs :
  Server.checkConditions (H := asciiExtern) (world TimerC)
    (Route.Conditions (quiet true))
    (Server.extractHeaders (fasthttp.fresh (requestWith [] [])))
  = Some silent
  ∧ RouteCondition.GetResponseBody silent = ""
  ∧ fasthttp.Body
      (fst (@Server.handleRoute asciiExtern (world TimerC)
              (fasthttp.fresh (requestWith [] [])) (quiet true)))
    = "{" +:+ json.newline
      +:+ "  " +:+ json.quoted "headers" +:+ ": {}," +:+ json.newline
      +:+ "  " +:+ json.quoted "query_parameters" +:+ ": {}"
      +:+ json.newline +:+ "}"
  ∧ fasthttp.Body
      (fst (@Server.handleRoute asciiExtern (world TimerC)
              (fasthttp.fresh (requestWith [] [])) (quiet true)))
    ≠ "".
Proof.
  split; [reflexivity|]. split; [reflexivity|].
  split; [vm_compute; reflexivity|].
  intros Heq. vm_compute in Heq. discriminate Heq.
Qed.

(** ** Further properties of the code: the configuration *)

Lemma validMethods_elem (m : string) :
  configs.validMethods m = true
  ↔ m ∈ ["GET"; "POST"; "PUT"; "DELETE"; "PATCH"; "HEAD"; "OPTIONS"].
Proof.
  unfold configs.validMethods.
  rewrite !orb_true_iff, !String.eqb_eq, !elem_of_cons, elem_of_nil.
  tauto.
Qed.

Lemma validateRoutes_None (i : nat) (routes : list Route.t) :
  configs.validateRoutes i routes = None ↔ Forall validRoute routes.
Proof.
  revert i. induction routes as [|r rest IH]; intros i; simpl.
  - split; [constructor | done].
  - rewrite Forall_cons. unfold validRoute at 1.
    destruct (String.eqb_spec (Route.Path r) "") as [Hp|Hp].
    { split; [done | by intros [[? _] _]]. }
    destruct (String.eqb_spec (Route.Method r) "") as [Hm|Hm]; simpl.
    { rewrite IH. by intuition. }
    destruct (configs.validMethods (Route.Method r)) eqn:Hv; simpl.
    + apply validMethods_elem in Hv. rewrite IH. by intuition.
    + split; [done|]. intros [[_ [?|Hin]] _]; [done|].
      apply validMethods_elem in Hin. congruence.
Qed.

Lemma validateConfig_verdict (config : ServerConfig.t) :
  (configs.validateConfig config).2
  = configs.validateRoutes 0 (ServerConfig.Routes config).
Proof.
  unfold configs.validateConfig.
  by destruct (String.eqb (ServerConfig.Address config) "").
Qed.

Lemma validateConfig_outcome (config : ServerConfig.t) :
  ServerConfig.Address (configs.validateConfig config).1 ≠ ""
  ∧ ServerConfig.Routes (configs.validateConfig config).1
    = ServerConfig.Routes config.
Proof.
  unfold configs.validateConfig.
  by destruct (String.eqb_spec (ServerConfig.Address config) "").
Qed.

(** [validateConfig] returns no error exactly when every route has a path
    and has no method or one of GET, POST, PUT, DELETE, PATCH, HEAD and
    OPTIONS, spelt in capitals; the address plays no part. *)
Theorem validateConfig_accepts_iff (config : ServerConfig.t) :
  (configs.validateConfig config).2 = None
  ↔ Forall validRoute (ServerConfig.Routes config).
Proof. rewrite validateConfig_verdict. apply validateRoutes_None. Qed.

Lemma validateRoutes_step (i : nat) (r : Route.t) (rest : list Route.t) :
  validRoute r →
  configs.validateRoutes i (r :: rest) = configs.validateRoutes (S i) rest.
Proof.
  intros [Hpath Hmethod]. cbn [configs.validateRoutes].
  destruct (String.eqb_spec (Route.Path r) ""); [done|].
  destruct Hmethod as [->|Hin]; [done|].
  apply validMethods_elem in Hin. rewrite Hin.
  by rewrite andb_false_r.
Qed.

Lemma validateRoutes_first (i : nat) (before after : list Route.t)
    (r : Route.t) :
  Forall validRoute before →
  configs.validateRoutes i (before ++ r :: after)
  = configs.validateRoutes (i + length before) (r :: after).
Proof.
  revert i. induction before as [|r0 rest IH]; intros i Hvalid.
  - by rewrite Nat.add_0_r.
  - apply Forall_cons in Hvalid as [Hr0 Hrest].
    rewrite <- app_comm_cons, (validateRoutes_step i r0 _ Hr0).
    rewrite (IH (S i) Hrest). cbn [length]. by rewrite Nat.add_succ_r.
Qed.

(** The error of [validateConfig] is that of the first route it refuses,
    numbered from zero, and on a route the path is looked at before the
    method: a route without a path is reported for its path whatever its
    method, and a method is reported as it is written. *)
Theorem validateConfig_first_error (config : ServerConfig.t)
    (before after : list Route.t) (r : Route.t) :
  ServerConfig.Routes config = before ++ r :: after →
  Forall validRoute before →
  ¬ validRoute r →
  (Route.Path r = "" →
   (configs.validateConfig config).2
   = Some ("route " +:+ pretty (length before) +:+ ": path cannot be empty"))
  ∧ (Route.Path r ≠ "" →
     (configs.validateConfig config).2
     = Some ("route " +:+ pretty (length before)
             +:+ ": invalid HTTP method '" +:+ Route.Method r +:+ "'")).
Proof.
  intros Hroutes Hbefore Hbad.
  rewrite validateConfig_verdict, Hroutes.
  rewrite (validateRoutes_first 0 before after r Hbefore). cbn [Nat.add].
  cbn [configs.validateRoutes]. split.
  - intros ->. done.
  - intros Hpath.
    destruct (String.eqb_spec (Route.Path r) ""); [done|].
    destruct (String.eqb_spec (Route.Method r) "") as [Hm|Hm].
    { destruct Hbad. split; [done | by left]. }
    destruct (configs.validMethods (Route.Method r)) eqn:Hv; [|done].
    destruct Hbad. split; [done|]. right. by apply validMethods_elem.
Qed.

(** The third route, written with a method in small letters, after two
    good ones. *)
Lemma validateConfig_first_error_witness :
  (configs.validateConfig lateConfig).2
  = Some "route 2: invalid HTTP method 'get'".
Proof.
  refine (proj2 (validateConfig_first_error lateConfig [hello; users]
                   [negativeRoute] late eq_refl _ _) _).
  - by apply (validateRoutes_None 0).
  - intros Hlate.
    assert (Forall validRoute [late]) as Hv by (by constructor).
    apply (validateRoutes_None 0) in Hv. discriminate Hv.
  - discriminate.
Defined.

(** [validateConfig] touches nothing but an empty address, which becomes
    ":12330", and it does so whether or not it then refuses a route: the
    routes and the log level are as before, the address is never empty
    afterwards, and validating the outcome again changes nothing and gives
    the same verdict. *)
Theorem validateConfig_address (config : ServerConfig.t) :
  let after := (configs.validateConfig config).1 in
  ServerConfig.Address after ≠ ""
  ∧ (ServerConfig.Address config ≠ "" → after = config)
  ∧ (ServerConfig.Address config = "" → ServerConfig.Address after = ":12330")
  ∧ ServerConfig.Routes after = ServerConfig.Routes config
  ∧ ServerConfig.LogLevel after = ServerConfig.LogLevel config
  ∧ configs.validateConfig after = configs.validateConfig config.
Proof.
  unfold configs.validateConfig.
  destruct (String.eqb_spec (ServerConfig.Address config) "") as [He|Hne];
    cbn [fst snd ServerConfig.Address ServerConfig.Routes
         ServerConfig.LogLevel String.eqb Ascii.eqb].
  - by repeat split.
  - repeat split; try done.
    by destruct (String.eqb_spec (ServerConfig.Address config) "").
Qed.

(** [LoadConfig] hands out a configuration exactly when the file is read,
    its content is decoded and every route of the decoded configuration is
    valid; what it hands out is the decoded configuration with the default
    address filled in, so it always has an address and only valid routes. *)
Theorem LoadConfig_validated `{ExternFile} (filePath : string)
    (config : ServerConfig.t) :
  configs.LoadConfig filePath = inl config
  ↔ ∃ data raw,
      ReadFile filePath = inl data
      ∧ Unmarshal data = inl raw
      ∧ Forall validRoute (ServerConfig.Routes raw)
      ∧ config = (configs.validateConfig raw).1
      ∧ ServerConfig.Address config ≠ ""
      ∧ Forall validRoute (ServerConfig.Routes config).
Proof.
  unfold configs.LoadConfig. split.
  - destruct (ReadFile filePath) as [data|err] eqn:Hread; [|done].
    destruct (Unmarshal data) as [raw|err] eqn:Hdecode; [|done].
    pose proof (validateConfig_verdict raw) as Hverdict.
    pose proof (validateConfig_outcome raw) as [Haddr Hroutes].
    destruct (configs.validateConfig raw) as [after [err|]] eqn:Hval;
      [done|].
    intros [= <-]. exists data, raw. cbn [fst snd] in *.
    assert (Forall validRoute (ServerConfig.Routes raw)) as Hvalid
      by (by apply (validateRoutes_None 0)).
    split; [done|]. split; [done|]. split; [done|].
    split; [by rewrite Hval|]. split; [done|]. by rewrite Hroutes.
  - intros (data & raw & -> & -> & Hvalid & -> & _).
    apply (validateRoutes_None 0) in Hvalid.
    rewrite <- validateConfig_verdict in Hvalid.
    destruct (configs.validateConfig raw) as [after err].
    cbn [snd fst] in *. by rewrite Hvalid.
Qed.

(** The one file of [oneFile] loads, with the default address. *)
Lemma LoadConfig_validated_witness :
  configs.LoadConfig (H := oneFile) "config.yaml"
  = inl {| ServerConfig.Address := ":12330";
           ServerConfig.LogLevel := "DEBUG";
           ServerConfig.Routes := [hello; users] |}.
Proof.
  apply (LoadConfig_validated (H := oneFile)).
  exists "routes", sampleConfig.
  repeat split; try reflexivity; try discriminate;
    by apply (validateRoutes_None 0).
Defined.

(** ** Further properties of the code: letters and their case *)

Lemma byte_range (c : ascii) : 0 ≤ byte c < 256.
Proof. unfold byte. pose proof (N_ascii_bounded c). lia. Qed.

Lemma byte_ofByte (z : Z) : 0 ≤ z < 256 → byte (strings.ofByte z) = z.
Proof.
  intros Hz. unfold byte, strings.ofByte.
  rewrite N_ascii_embedding by lia. lia.
Qed.

Lemma byte_inj (a b : ascii) : byte a = byte b → a = b.
Proof.
  unfold byte. intros Heq%N2Z.inj.
  by rewrite <- (ascii_N_embedding a), <- (ascii_N_embedding b), Heq.
Qed.

Lemma lowerBytes_no_upper (s : string) :
  strings.hasUpper s = false → strings.lowerBytes s = s.
Proof.
  induction s as [|c s IH]; [done|]. simpl.
  intros [-> Hs]%orb_false_iff. by rewrite IH.
Qed.

Lemma lowerBytes_lowered (s : string) :
  strings.isASCII s = true →
  strings.isASCII (strings.lowerBytes s) = true
  ∧ strings.hasUpper (strings.lowerBytes s) = false.
Proof.
  induction s as [|c s IH]; [done|]. simpl.
  destruct (Z.leb_spec 128 (byte c)) as [|Hc]; [done|]. intros Hs.
  destruct (IH Hs) as [-> ->]. pose proof (byte_range c).
  destruct ((65 <=? byte c) && (byte c <=? 90)) eqn:Hup.
  - apply andb_true_iff in Hup as [?%Z.leb_le ?%Z.leb_le].
    rewrite byte_ofByte by lia. split.
    + by destruct (Z.leb_spec 128 (byte c + (97 - 65))); [lia|].
    + rewrite orb_false_r. apply andb_false_iff. right. apply Z.leb_gt. lia.
  - rewrite Hup. by destruct (Z.leb_spec 128 (byte c)); [lia|].
Qed.

Section Case.
Context `{ExternCase}.

Lemma ToLower_ascii (s : string) :
  strings.isASCII s = true → strings.ToLower s = strings.lowerBytes s.
Proof.
  intros Hs. unfold strings.ToLower. rewrite Hs.
  destruct (strings.hasUpper s) eqn:Hup; [done|].
  by rewrite lowerBytes_no_upper.
Qed.

Lemma ToLower_twice (s : string) :
  strings.isASCII s = true →
  strings.ToLower (strings.ToLower s) = strings.lowerBytes s.
Proof.
  intros Hs. rewrite (ToLower_ascii s Hs).
  destruct (lowerBytes_lowered s Hs) as [Hascii Hup].
  rewrite (ToLower_ascii _ Hascii). by apply lowerBytes_no_upper.
Qed.

(** The log level of a configuration is read without regard to the case of
    its ASCII letters: [debug], [warn] or [warning], and [error] in any
    capitals give their level, an empty level gives info, and so does every
    other name. *)
Theorem log_level_ignores_case (config : ServerConfig.t) :
  strings.isASCII (ServerConfig.LogLevel config) = true →
  let name := ServerConfig.LogLevel config in
  let level := setupLogger (ServerConfig.GetLogLevel config) in
  (level = slog.LevelDebug ↔ sameUpToCase name "debug")
  ∧ (level = slog.LevelWarn
     ↔ sameUpToCase name "warn" ∨ sameUpToCase name "warning")
  ∧ (level = slog.LevelError ↔ sameUpToCase name "error")
  ∧ (level = slog.LevelInfo
     ↔ ¬ sameUpToCase name "debug" ∧ ¬ sameUpToCase name "warn"
       ∧ ¬ sameUpToCase name "warning" ∧ ¬ sameUpToCase name "error").
Proof.
  intros Hascii name level. subst level.
  unfold ServerConfig.GetLogLevel, setupLogger, sameUpToCase. fold name.
  destruct (String.eqb_spec name "") as [->|Hname].
  { cbn. repeat split; try done; intros; intuition discriminate. }
  rewrite (ToLower_twice name Hascii).
  cbn [strings.lowerBytes byte]. 
  change (strings.lowerBytes "debug") with "debug".
  change (strings.lowerBytes "warn") with "warn".
  change (strings.lowerBytes "warning") with "warning".
  change (strings.lowerBytes "error") with "error".
  destruct (String.eqb_spec (strings.lowerBytes name) "debug") as [->|Hd].
  { repeat split; try done; intros; intuition discriminate. }
  destruct (String.eqb_spec (strings.lowerBytes name) "info") as [->|Hi].
  { repeat split; try done; intros; intuition discriminate. }
  destruct (String.eqb_spec (strings.lowerBytes name) "warn") as [->|Hw].
  { cbn. repeat split; try done; intros; intuition discriminate. }
  destruct (String.eqb_spec (strings.lowerBytes name) "warning") as [->|Hw'].
  { cbn. repeat split; try done; intros; intuition discriminate. }
  cbn [orb].
  destruct (String.eqb_spec (strings.lowerBytes name) "error") as [->|He].
  { repeat split; try done; intros; intuition discriminate. }
  repeat split; try done; intros; intuition discriminate.
Qed.
End Case.

(** The level of [sampleConfig], written [DEBUG]. *)
Lemma log_level_ignores_case_witness :
  setupLogger (H := asciiCase)
    (ServerConfig.GetLogLevel (H := asciiCase) sampleConfig)
  = slog.LevelDebug.
Proof.
  by apply (log_level_ignores_case (H := asciiCase) sampleConfig eq_refl).
Defined.

(** ** Further properties of the code: dispatch *)

Section Dispatch.
Context `{Extern} `{ExternCase}.

Lemma registration_valid (route : Route.t) :
  validRoute route →
  router.name (Server.registration (strings.ToUpper (Route.GetMethod route)))
  = Some (Route.GetMethod route).
Proof.
  intros [_ Hmethod]. unfold Route.GetMethod.
  destruct Hmethod as [->|Hin]; [done|].
  repeat (apply elem_of_cons in Hin as [->|Hin]; [done|]).
  by apply elem_of_nil in Hin.
Qed.

Lemma registerRoutes_calls `{ExternRouter} (routes : list Route.t)
    (r : Router) :
  Forall validRoute routes →
  let calls := (Server.registerRoutes routes r).1 in
  let outcome := (Server.registerRoutes routes r).2 in
  Forall (λ call : Server.Call,
            router.name call.1.1 = Some (Route.GetMethod call.2)
            ∧ call.1.2 = Route.Path call.2) calls
  ∧ (∀ r', outcome = inl r' → calls.*2 = routes)
  ∧ (∀ panic, outcome = inr panic →
       ∃ before route after,
         routes = before ++ route :: after ∧ calls.*2 = before ++ [route]).
Proof.
  revert r. induction routes as [|route rest IH]; intros r Hvalid.
  { cbn. split; [constructor|]. split; [done | discriminate]. }
  apply Forall_cons in Hvalid as [Hroute Hrest].
  cbn [Server.registerRoutes].
  destruct (Handle _ _ route r) as [r1|panic1] eqn:Hcall.
  - destruct (IH r1 Hrest) as (Hcalls & Hok & Hpanic).
    destruct (Server.registerRoutes rest r1) as [calls outcome].
    cbn [fst snd] in *. split; [|split].
    + constructor; [|done]. split; [|done].
      by apply registration_valid.
    + intros r' Hr'. cbn [fmap list_fmap snd]. f_equal. by apply (Hok r').
    + intros panic Hp.
      destruct (Hpanic panic Hp) as (before & refused & after & -> & Heq).
      exists (route :: before), refused, after. split; [done|].
      cbn [fmap list_fmap snd]. by rewrite <- app_comm_cons; f_equal.
  - cbn [fst snd]. split; [|split].
    + constructor; [|constructor]. split; [|done].
      by apply registration_valid.
    + discriminate.
    + intros panic _. by exists [], route, rest.
Qed.

(** In the version of the server that dispatches with a router, on a
    configuration [validateConfig] accepts, every registration is made
    with the router method that bears the route's own method, GET for a
    route without one, and with the route's path: no route falls to the
    registration for any method, which the function keeps for methods it
    does not know.  The routes are registered in the order of the
    configuration; when the router takes them all, each has been registered
    once, and when it refuses one, the function panics there and the routes
    after it are not registered. *)
Theorem initializeRouter_validated `{ExternRouter} (config : ServerConfig.t) :
  Forall validRoute (ServerConfig.Routes config) →
  let calls := (Server.initializeRouter config).1 in
  let outcome := (Server.initializeRouter config).2 in
  Forall (λ call : Server.Call,
            router.name call.1.1 = Some (Route.GetMethod call.2)
            ∧ call.1.2 = Route.Path call.2) calls
  ∧ (∀ r, outcome = inl r → calls.*2 = ServerConfig.Routes config)
  ∧ (∀ panic, outcome = inr panic →
       ∃ before route after,
         ServerConfig.Routes config = before ++ route :: after
         ∧ calls.*2 = before ++ [route]).
Proof.
  intros Hvalid. unfold Server.initializeRouter.
  destruct (registerRoutes_calls (ServerConfig.Routes config) New Hvalid)
    as (Hcalls & Hok & Hpanic).
  destruct (Server.registerRoutes _ New) as [calls [r|panic]];
    cbn [fst snd] in *.
  - split; [done|]. split; [intros _ _; by apply (Hok r) | discriminate].
  - split; [done|]. split; [discriminate|].
    intros panic' _. by apply (Hpanic panic).
Qed.

Lemma matchRoute_fits (route : Route.t) (path method : string) :
  Server.matchRoute route path method = true ↔ fits route path method.
Proof.
  unfold Server.matchRoute, fits.
  destruct (strings.EqualFold (Route.GetMethod route) method); simpl.
  - rewrite String.eqb_eq. tauto.
  - split; [done | by intros [_ ?]].
Qed.

Lemma serve_skips (w : World) (before rest : list Route.t)
    (path method : string) (ctx : fasthttp.RequestCtx) :
  Forall (λ r, ¬ fits r path method) before →
  Server.serve w (before ++ rest) path method ctx
  = Server.serve w rest path method ctx.
Proof.
  induction 1 as [|r before Hr _ IH]; cbn [app Server.serve]; [done|].
  destruct (Server.matchRoute r path method) eqn:Hm; [|done].
  by apply matchRoute_fits in Hm.
Qed.

(** [RequestHandler] serves a request with the first route of the
    configuration that fits it, whatever routes follow; a request no route
    fits gets status 404, Content-Type text/plain and the body
    "404 Not Found", with no delay and no look at the delay parameter. *)
Theorem RequestHandler_first_fit (w : World) (config : ServerConfig.t)
    (path method : string) (ctx : fasthttp.RequestCtx) :
  (∀ before route after,
     ServerConfig.Routes config = before ++ route :: after →
     Forall (λ r, ¬ fits r path method) before →
     fits route path method →
     Server.RequestHandler w config path method ctx
     = Server.handleRoute w ctx route)
  ∧ (Forall (λ r, ¬ fits r path method) (ServerConfig.Routes config) →
     Server.RequestHandler w config path method ctx
     = (fasthttp.WriteString "404 Not Found"
          (fasthttp.SetContentType "text/plain"
             (fasthttp.SetStatusCode 404 ctx)), [])).
Proof.
  unfold Server.RequestHandler. split.
  - intros before route after -> Hbefore Hfit%matchRoute_fits.
    rewrite (serve_skips w before _ path method ctx Hbefore).
    cbn [Server.serve]. by rewrite Hfit.
  - intros Hnone.
    rewrite <- (app_nil_r (ServerConfig.Routes config)).
    by rewrite (serve_skips w _ [] path method ctx Hnone).
Qed.

(** A route that has the path and the method of an earlier route of the
    configuration is never served: taking it out changes the answer to no
    request. *)
Theorem RequestHandler_shadowed_route (w : World)
    (address level : string) (before between after : list Route.t)
    (first second : Route.t) (path method : string)
    (ctx : fasthttp.RequestCtx) :
  Route.Path first = Route.Path second →
  Route.GetMethod first = Route.GetMethod second →
  Server.RequestHandler w
    {| ServerConfig.Address := address; ServerConfig.LogLevel := level;
       ServerConfig.Routes :=
         before ++ first :: between ++ second :: after |}
    path method ctx
  = Server.RequestHandler w
      {| ServerConfig.Address := address; ServerConfig.LogLevel := level;
         ServerConfig.Routes := before ++ first :: between ++ after |}
      path method ctx.
Proof.
  intros Hpath Hmethod. unfold Server.RequestHandler.
  cbn [ServerConfig.Routes].
  induction before as [|r rest IH]; cbn [app Server.serve].
  - destruct (Server.matchRoute first path method) eqn:Hfirst; [done|].
    assert (Server.matchRoute second path method = false) as Hsecond.
    { rewrite <- Hfirst. unfold Server.matchRoute.
      by rewrite Hpath, Hmethod. }
    induction between as [|r rest IH]; cbn [app Server.serve].
    + by rewrite Hsecond.
    + by destruct (Server.matchRoute r path method).
  - by destruct (Server.matchRoute r path method).
Qed.
End Dispatch.

(** The two routes of [sampleConfig] on the reference router: both are
    registered, under their own methods. *)
Lemma initializeRouter_validated_witness :
  (Server.initializeRouter (H0 := asciiCase) (H1 := strictRouter)
     sampleConfig).1
  = [(router.GET, "/hello", hello); (router.POST, "/api/users", users)]
  ∧ (Server.initializeRouter (H0 := asciiCase) (H1 := strictRouter)
       sampleConfig).1.*2
    = ServerConfig.Routes sampleConfig.
Proof.
  split; [reflexivity|].
  refine (proj1 (proj2 (initializeRouter_validated (H0 := asciiCase)
                          (H1 := strictRouter) sampleConfig _))
            [(router.GET, "/hello"); (router.POST, "/api/users")] eq_refl).
  by apply (validateRoutes_None 0).
Defined.

(** A configuration that [validateConfig] accepts and the reference router
    refuses: the second registration of [/hello] panics, and the route
    after it is not registered. *)
Example initializeRouter_panics :
  (configs.validateConfig twiceConfig).2 = None
  ∧ Server.initializeRouter (H0 := asciiCase) (H1 := strictRouter) twiceConfig
    = ([(router.POST, "/api/users", users); (router.GET, "/hello", hello);
        (router.GET, "/hello", hello)],
       inr "a handler is already registered").
Proof. split; reflexivity. Qed.

Lemma lor_below_128 (a b : Z) :
  0 ≤ a < 128 → 0 ≤ b < 128 → 0 ≤ Z.lor a b < 128.
Proof.
  intros Ha Hb.
  assert (0 ≤ Z.lor a b) as Hnonneg by (apply Z.lor_nonneg; lia).
  split; [done|].
  destruct (Z.eq_dec (Z.lor a b) 0) as [->|Hne]; [lia|].
  change 128 with (2 ^ 7). apply Z.log2_lt_pow2; [lia|].
  rewrite Z.log2_lor by lia.
  assert (∀ x, 0 ≤ x < 128 → Z.log2 x < 7) as Hlog.
  { intros x Hx. destruct (Z.eq_dec x 0) as [->|]; [done|].
    apply Z.log2_lt_pow2; lia. }
  pose proof (Hlog a Ha). pose proof (Hlog b Hb). lia.
Qed.

Lemma lowerBytes_head (c : ascii) (s : string) :
  ∃ c', strings.lowerBytes (String c s) = String c' (strings.lowerBytes s)
        ∧ byte c' = fasthttp.toLower (byte c).
Proof.
  cbn [strings.lowerBytes]. unfold fasthttp.toLower.
  pose proof (byte_range c).
  destruct ((65 <=? byte c) && (byte c <=? 90)) eqn:Hup.
  - apply andb_true_iff in Hup as [?%Z.leb_le ?%Z.leb_le].
    eexists. split; [done|]. rewrite byte_ofByte; lia.
  - by eexists.
Qed.

Lemma lowerBytes_cons_eq (sc tc : ascii) (s t : string) :
  strings.lowerBytes (String sc s) = strings.lowerBytes (String tc t)
  ↔ fasthttp.toLower (byte sc) = fasthttp.toLower (byte tc)
    ∧ strings.lowerBytes s = strings.lowerBytes t.
Proof.
  destruct (lowerBytes_head sc s) as (sc' & -> & <-).
  destruct (lowerBytes_head tc t) as (tc' & -> & <-).
  split; [by intros [= -> ->] | by intros [->%byte_inj ->]].
Qed.

Section Fold.
Context `{Extern}.

(** On strings of ASCII [EqualFold] is equality up to the case of the
    letters. *)
Lemma EqualFold_ascii (s t : string) :
  strings.isASCII s = true → strings.isASCII t = true →
  strings.EqualFold s t = true ↔ sameUpToCase s t.
Proof.
  unfold sameUpToCase. revert t.
  induction s as [|sc s IH]; intros [|tc t]; try (by split).
  rewrite lowerBytes_cons_eq.
  cbn [strings.isASCII strings.EqualFold].
  destruct (Z.leb_spec 128 (byte sc)) as [|Hs]; [done|].
  destruct (Z.leb_spec 128 (byte tc)) as [|Ht]; [done|].
  intros Hsa Hta. specialize (IH t Hsa Hta).
  pose proof (byte_range sc) as Hsr. pose proof (byte_range tc) as Htr.
  pose proof (lor_below_128 (byte sc) (byte tc)).
  destruct (Z.leb_spec 128 (Z.lor (byte sc) (byte tc))); [lia|].
  rewrite <- IH. unfold fasthttp.toLower.
  destruct (Z.eqb_spec (byte tc) (byte sc)) as [Heq|Hne].
  { rewrite Heq. tauto. }
  destruct (Z.ltb_spec (byte tc) (byte sc)) as [Hlt|Hge].
  - destruct (Z.leb_spec 65 (byte tc)), (Z.leb_spec (byte tc) 90),
      (Z.leb_spec 65 (byte sc)), (Z.leb_spec (byte sc) 90),
      (Z.eqb_spec (byte sc) (byte tc + 97 - 65));
      cbn [andb]; intuition (try lia; try discriminate).
  - destruct (Z.leb_spec 65 (byte tc)), (Z.leb_spec (byte tc) 90),
      (Z.leb_spec 65 (byte sc)), (Z.leb_spec (byte sc) 90),
      (Z.eqb_spec (byte tc) (byte sc + 97 - 65));
      cbn [andb]; intuition (try lia; try discriminate).
Qed.

(** The method of a request is matched without regard to the case of its
    ASCII letters, the path byte for byte: a route with no method serves
    [GET], [get] and [Get] alike. *)
Theorem matchRoute_method_case (route : Route.t) (path method : string) :
  strings.isASCII (Route.GetMethod route) = true →
  strings.isASCII method = true →
  Server.matchRoute route path method = true
  ↔ Route.Path route = path ∧ sameUpToCase (Route.GetMethod route) method.
Proof.
  intros Hroute Hmethod. rewrite matchRoute_fits. unfold fits.
  by rewrite (EqualFold_ascii _ _ Hroute Hmethod).
Qed.
End Fold.

(** The route [/hello], which has no method, and a request for it with
    [get]. *)
Lemma matchRoute_method_case_witness :
  Server.matchRoute (H := asciiExtern) hello "/hello" "get" = true.
Proof.
  by apply (matchRoute_method_case (H := asciiExtern) hello "/hello" "get"
              eq_refl eq_refl).
Defined.

(** Two routes for [GET /hello], the second one written with its method;
    a request is answered as if the second were not there. *)
Lemma RequestHandler_shadowed_route_witness :
  Server.RequestHandler (H := asciiExtern) (world TimerC)
    {| ServerConfig.Address := ":8080"; ServerConfig.LogLevel := "";
       ServerConfig.Routes := [hello; users; secure; helloDump] |}
    "/hello" "GET" (fasthttp.fresh (requestWith [] []))
  = Server.handleRoute (H := asciiExtern) (world TimerC)
      (fasthttp.fresh (requestWith [] [])) hello.
Proof.
  etrans.
  - exact (RequestHandler_shadowed_route (H := asciiExtern) (world TimerC)
             ":8080" "" [] [users; secure] [] hello helloDump "/hello" "GET"
             (fasthttp.fresh (requestWith [] [])) eq_refl eq_refl).
  - reflexivity.
Defined.

(** ** Further properties of the code: the request's headers and arguments *)

Lemma fold_insert_other (l : list (string * string))
    (m : gmap string string) (k : string) :
  Forall (λ kv, ¬ hasKey k kv) l →
  fold_left (λ m '(key, value), <[key := value]> m) l m !! k = m !! k.
Proof.
  revert m. induction l as [|[key value] rest IH]; intros m Hl; [done|].
  apply Forall_cons in Hl as [Hkey Hrest]. cbn [fold_left].
  rewrite (IH _ Hrest). apply lookup_insert_ne. by intros ->.
Qed.

Lemma fold_insert_last (before after : list (string * string))
    (m : gmap string string) (k v : string) :
  Forall (λ kv, ¬ hasKey k kv) after →
  fold_left (λ m '(key, value), <[key := value]> m)
    (before ++ (k, v) :: after) m !! k = Some v.
Proof.
  intros Hafter. rewrite fold_left_app. cbn [fold_left].
  rewrite (fold_insert_other after _ k Hafter). apply lookup_insert_eq.
Qed.

(** [extractHeaders] and [extractQueryParameters] keep, for a name that the
    request gives more than once, the value given last, and they have no
    entry for a name the request does not give. *)
Theorem extract_last_wins (ctx : fasthttp.RequestCtx) (k : string) :
  let headers := fasthttp.RequestHeader (fasthttp.Request_ ctx) in
  let args := fasthttp.QueryArgs (fasthttp.Request_ ctx) in
  (∀ before v after,
     headers = before ++ (k, v) :: after →
     Forall (λ kv, ¬ hasKey k kv) after →
     index (Server.extractHeaders ctx) k = Some v)
  ∧ (Forall (λ kv, ¬ hasKey k kv) headers →
     index (Server.extractHeaders ctx) k = None)
  ∧ (∀ before v after,
       args = before ++ (k, v) :: after →
       Forall (λ kv, ¬ hasKey k kv) after →
       index (Server.extractQueryParameters ctx) k = Some v)
  ∧ (Forall (λ kv, ¬ hasKey k kv) args →
     index (Server.extractQueryParameters ctx) k = None).
Proof.
  intros headers args. subst headers args.
  unfold Server.extractHeaders, Server.extractQueryParameters.
  cbn [index]. repeat split.
  - intros before v after -> Hafter. by apply fold_insert_last.
  - intros Hnone. by rewrite (fold_insert_other _ _ k Hnone).
  - intros before v after -> Hafter. by apply fold_insert_last.
  - intros Hnone. by rewrite (fold_insert_other _ _ k Hnone).
Qed.

Lemma Peek_first (before after : fasthttp.Args) (k v : string) :
  Forall (λ kv, ¬ hasKey k kv) before →
  fasthttp.Peek (before ++ (k, v) :: after) k = v.
Proof.
  induction 1 as [|[key value] rest Hkey _ IH]; cbn [app fasthttp.Peek].
  - by rewrite String.eqb_refl.
  - destruct (String.eqb_spec key k) as [->|]; [by destruct Hkey | done].
Qed.

(** When the query string gives [delay] more than once, the delay of the
    request is read from the first one alone, and what
    [extractQueryParameters] keeps for the dump is the last one; a query
    string that gives it once has the two agree. *)
Theorem delay_first_dump_last (req : fasthttp.Request)
    (before rest : fasthttp.Args) (first : string) :
  fasthttp.QueryArgs req = before ++ ("delay", first) :: rest →
  Forall (λ kv, ¬ hasKey "delay" kv) before →
  Server.parseDelayParam (fasthttp.fresh req)
  = Server.parseDelayParam
      (fasthttp.fresh (requestWith [] [("delay", first)]))
  ∧ (∀ between last after,
       rest = between ++ ("delay", last) :: after →
       Forall (λ kv, ¬ hasKey "delay" kv) after →
       index (Server.extractQueryParameters (fasthttp.fresh req)) "delay"
       = Some last)
  ∧ (Forall (λ kv, ¬ hasKey "delay" kv) rest →
     index (Server.extractQueryParameters (fasthttp.fresh req)) "delay"
     = Some first).
Proof.
  intros Hargs Hbefore.
  assert (∀ front v back,
            fasthttp.QueryArgs req = front ++ ("delay", v) :: back →
            Forall (λ kv, ¬ hasKey "delay" kv) back →
            index (Server.extractQueryParameters (fasthttp.fresh req))
              "delay" = Some v) as Hlast.
  { intros front v back Heq Hback. unfold Server.extractQueryParameters.
    cbn [index fasthttp.fresh fasthttp.Request_]. rewrite Heq.
    by apply fold_insert_last. }
  split; [|split].
  - unfold Server.parseDelayParam.
    cbn [fasthttp.fresh fasthttp.Request_ fasthttp.QueryArgs requestWith].
    rewrite Hargs, (Peek_first before rest "delay" first Hbefore).
    cbn [fasthttp.Peek]. by rewrite String.eqb_refl.
  - intros between last after -> Hafter.
    apply (Hlast (before ++ ("delay", first) :: between) last after);
      [|done].
    by rewrite Hargs, <- app_assoc.
  - intros Hrest. by apply (Hlast before first rest).
Qed.

(** The query string [?delay=10ms&delay=2s]: the request waits 10ms, and
    its dump would show 2s. *)
Lemma delay_first_dump_last_witness :
  Server.parseDelayParam
    (fasthttp.fresh (requestWith [] [("delay", "10ms"); ("delay", "2s")]))
  = inl (10 * time.Millisecond)
  ∧ index (Server.extractQueryParameters
             (fasthttp.fresh
                (requestWith [] [("delay", "10ms"); ("delay", "2s")])))
      "delay"
    = Some "2s".
Proof.
  destruct (delay_first_dump_last
              (requestWith [] [("delay", "10ms"); ("delay", "2s")])
              [] [("delay", "2s")] "10ms" eq_refl (Forall_nil_2 _))
    as (Hfirst & Hlast & _).
  split.
  - rewrite Hfirst. reflexivity.
  - apply (Hlast [] "2s" [] eq_refl). constructor.
Defined.

(** ** Further properties of the code: the order of maps and the response *)

Lemma contentTypeAfter_one (l : list (string * string))
    (ct k v : string) :
  NoDup l.*1 →
  (∀ k1 v1 k2 v2, (k1, v1) ∈ l → (k2, v2) ∈ l →
                  isContentType k1 = true → isContentType k2 = true →
                  k1 = k2) →
  (k, v) ∈ l → isContentType k = true →
  contentTypeAfter ct l = v.
Proof.
  revert ct. induction l as [|[k0 v0] rest IH]; intros ct Hnodup Hone Hin Hk.
  { by apply elem_of_nil in Hin. }
  apply NoDup_cons in Hnodup as [Hfresh Hnodup].
  unfold contentTypeAfter. cbn [fold_left].
  apply elem_of_cons in Hin as [[= <- <-]|Hin].
  - rewrite Hk.
    assert (∀ k2 v2, (k2, v2) ∈ rest → isContentType k2 = false) as Hrest.
    { intros k2 v2 Hin2. destruct (isContentType k2) eqn:Hk2; [|done].
      destruct Hfresh.
      assert (k2 = k) as ->.
      { apply (Hone k2 v2 k v); try done.
        - by apply list_elem_of_further.
        - apply list_elem_of_here. }
      apply list_elem_of_fmap. by exists (k, v2). }
    destruct (otherHeaders_all rest Hrest) as [_ Hct]. apply Hct.
  - apply (IH (if isContentType k0 then v0 else ct)); try done.
    intros k1 v1 k2 v2 H1 H2.
    apply (Hone k1 v1 k2 v2); by apply list_elem_of_further.
Qed.

Lemma contentTypeAfter_order (m : map_string_string)
    (l1 l2 : list (string * string)) (ct : string) :
  oneContentType m → l1 ≡ₚ entries m → l2 ≡ₚ entries m →
  contentTypeAfter ct l1 = contentTypeAfter ct l2.
Proof.
  intros Hone H1 H2.
  assert (∀ l, l ≡ₚ entries m →
               NoDup l.*1
               ∧ ∀ k v, (k, v) ∈ l ↔ index m k = Some v) as Hfacts.
  { intros l Hl. split.
    - rewrite Hl. destruct m as [m|]; [apply NoDup_fst_map_to_list|].
      constructor.
    - intros k v. rewrite Hl. destruct m as [m|]; simpl.
      + apply elem_of_map_to_list.
      + split; [by intros ?%elem_of_nil | done]. }
  destruct (Hfacts l1 H1) as [Hnd1 Hin1].
  destruct (Hfacts l2 H2) as [Hnd2 Hin2].
  assert (∀ l : list (string * string),
               (∀ k v, (k, v) ∈ l ↔ index m k = Some v) →
               ∀ k1 v1 k2 v2, (k1, v1) ∈ l → (k2, v2) ∈ l →
                 isContentType k1 = true → isContentType k2 = true →
                 k1 = k2) as Hlist.
  { intros l Hl k1 v1 k2 v2 Ha%Hl Hb%Hl. by apply (Hone k1 v1 k2 v2). }
  destruct (decide (Exists (λ kv, isContentType kv.1 = true) l1))
    as [Hsome|Hnone].
  - apply Exists_exists in Hsome as ([k v] & Hin & Hk). cbn [fst] in Hk.
    rewrite (contentTypeAfter_one l1 ct k v Hnd1 (Hlist l1 Hin1) Hin Hk).
    symmetry. apply (contentTypeAfter_one l2 ct k v Hnd2 (Hlist l2 Hin2));
      [|done].
    by apply Hin2, Hin1.
  - assert (∀ l : list (string * string),
                 (∀ k v, (k, v) ∈ l ↔ index m k = Some v) →
                 ∀ k v, (k, v) ∈ l → isContentType k = false) as Hno.
    { intros l Hl k v Hin%Hl%Hin1.
      destruct (isContentType k) eqn:Hk; [|done].
      destruct Hnone. apply Exists_exists. by exists (k, v). }
    destruct (otherHeaders_all l1 (Hno l1 Hin1)) as [_ ->].
    by destruct (otherHeaders_all l2 (Hno l2 Hin2)) as [_ ->].
Qed.

Lemma otherHeaders_Permutation (l1 l2 : list (string * string)) :
  l1 ≡ₚ l2 → otherHeaders l1 ≡ₚ otherHeaders l2.
Proof.
  unfold otherHeaders.
  induction 1 as [|[k v] l1 l2 _ IH|[k1 v1] [k2 v2] l|l1 l2 l3 _ IH1 _ IH2];
    cbn [List.filter].
  - done.
  - destruct (negb (isContentType k)); by rewrite IH.
  - destruct (negb (isContentType k1)), (negb (isContentType k2));
      try done. apply perm_swap.
  - by etrans.
Qed.

Lemma caseInsensitiveCompare_sym (a b : string) :
  fasthttp.caseInsensitiveCompare a b = fasthttp.caseInsensitiveCompare b a.
Proof.
  revert b. induction a as [|x a IH]; intros [|y b]; cbn; try done.
  by rewrite Z.eqb_sym, IH.
Qed.

Lemma caseInsensitiveCompare_trans (a b c : string) :
  fasthttp.caseInsensitiveCompare a b = true →
  fasthttp.caseInsensitiveCompare b c = true →
  fasthttp.caseInsensitiveCompare a c = true.
Proof.
  revert b c. induction a as [|x a IH]; intros [|y b] [|z c]; cbn; try done.
  intros [Hxy Hab]%andb_prop [Hyz Hbc]%andb_prop.
  apply Z.eqb_eq in Hxy, Hyz. apply andb_true_intro. split.
  - apply Z.eqb_eq. congruence.
  - by apply (IH b c).
Qed.

Lemma distinctNames_oneContentType (m : map_string_string) :
  distinctNames m → oneContentType m.
Proof.
  intros Hm k1 v1 k2 v2 H1 H2 Hk1 Hk2. apply (Hm k1 v1 k2 v2 H1 H2).
  unfold isContentType in *.
  apply (caseInsensitiveCompare_trans k1 "Content-Type" k2); [|done].
  by rewrite caseInsensitiveCompare_sym.
Qed.

Lemma elem_of_entries (m : map_string_string) (k v : string) :
  (k, v) ∈ entries m ↔ index m k = Some v.
Proof.
  destruct m as [m|]; simpl.
  - apply elem_of_map_to_list.
  - split; [by intros ?%elem_of_nil | done].
Qed.

Lemma elem_of_otherHeaders (l : list (string * string)) (k v : string) :
  (k, v) ∈ otherHeaders l → (k, v) ∈ l.
Proof.
  unfold otherHeaders. rewrite !list_elem_of_In.
  by intros [? _]%filter_In.
Qed.

Lemma valueSet_fold (name v : string) (l : list (string * string))
    (value : option string) :
  (∀ k' v', (k', v') ∈ l →
            fasthttp.caseInsensitiveCompare name k' = true → v' = v) →
  fold_left (λ value '(key, v),
               if fasthttp.caseInsensitiveCompare name key then Some v
               else value) l value
  = if existsb (λ kv, fasthttp.caseInsensitiveCompare name kv.1) l
    then Some v else value.
Proof.
  revert value. induction l as [|[k0 v0] rest IH]; intros value Hone; [done|].
  cbn [fold_left existsb fst].
  rewrite IH; [|intros k' v' Hin; apply Hone; by apply list_elem_of_further].
  destruct (fasthttp.caseInsensitiveCompare name k0) eqn:Hk0; [|done].
  rewrite (Hone k0 v0 (list_elem_of_here _ _) Hk0). cbn [orb].
  by destruct (existsb _ rest).
Qed.

Lemma valueSet_Permutation (name : string) (l1 l2 : list (string * string)) :
  l1 ≡ₚ l2 →
  (∀ k1 v1 k2 v2, (k1, v1) ∈ l1 → (k2, v2) ∈ l1 →
                  fasthttp.caseInsensitiveCompare name k1 = true →
                  fasthttp.caseInsensitiveCompare name k2 = true →
                  v1 = v2) →
  valueSet name l1 = valueSet name l2.
Proof.
  intros Hperm Hone. unfold valueSet.
  assert (existsb (λ kv, fasthttp.caseInsensitiveCompare name kv.1) l1
          = existsb (λ kv, fasthttp.caseInsensitiveCompare name kv.1) l2)
    as Hsame.
  { apply Bool.eq_iff_eq_true. rewrite !existsb_exists.
    split; intros (kv & Hin & Hkv); exists kv; split; try done.
    - by apply (Permutation_in _ Hperm).
    - by apply (Permutation_in _ (Permutation_sym Hperm)). }
  destruct (existsb _ l1) eqn:Hsome.
  - apply existsb_exists in Hsome as ([k v] & Hin%list_elem_of_In & Hk).
    cbn [fst] in Hk.
    rewrite (valueSet_fold name v l1), (valueSet_fold name v l2).
    + by rewrite <- Hsame, (proj2 (existsb_exists _ l1));
        [|exists (k, v); split; [by apply list_elem_of_In | done]].
    + intros k' v' Hin' Hk'. rewrite <- Hperm in Hin'.
      by apply (Hone k' v' k v).
    + intros k' v' Hin' Hk'. by apply (Hone k' v' k v).
  - assert (∀ l, existsb (λ kv, fasthttp.caseInsensitiveCompare name kv.1) l
                 = false →
                 ∀ k' v', (k', v') ∈ l →
                   fasthttp.caseInsensitiveCompare name k' = true →
                   v' = "") as Hnone.
    { intros l Hl k' v' Hin' Hk'.
      assert (existsb (λ kv, fasthttp.caseInsensitiveCompare name kv.1) l
              = true) as Hyes; [|by rewrite Hyes in Hl].
      apply existsb_exists. exists (k', v').
      split; [by apply list_elem_of_In | done]. }
    rewrite (valueSet_fold name "" l1 None (Hnone l1 Hsome)), Hsome.
    symmetry in Hsame.
    by rewrite (valueSet_fold name "" l2 None (Hnone l2 Hsame)), Hsame.
Qed.

Section Order.
Context `{Extern}.

Lemma checkConditions_order (w1 w2 : World)
    (conditions : list RouteCondition.t) (h : map_string_string) :
  Server.checkConditions w1 conditions h
  = Server.checkConditions w2 conditions h.
Proof.
  induction conditions as [|c rest IH]; [done|]. cbn [Server.checkConditions].
  assert (RouteCondition.MatchesHeaders w1 c h
          = RouteCondition.MatchesHeaders w2 c h) as ->.
  { apply Bool.eq_iff_eq_true. by rewrite !MatchesHeaders_headersPresent. }
  by rewrite IH.
Qed.

(** The response does not depend on the order in which the maps are
    visited, as long as no header map of the route or of its conditions has
    two keys that are one name up to case: the body, the status and the
    Content-Type are the same in any two runs, and so is, for every header
    name, the value handed to [Header.Set] last under that name, names
    compared up to case, which is the value the name is left with; the
    pairs handed to [Header.Set] are the same ones, in some order. *)
Theorem respond_order (w1 w2 : World) (req : fasthttp.Request)
    (route : Route.t) :
  distinctNames (Route.ResponseHeader route) →
  Forall (λ c, distinctNames (RouteCondition.ResponseHeader c))
    (Route.Conditions route) →
  let answer1 := Server.respond w1 (fasthttp.fresh req) route in
  let answer2 := Server.respond w2 (fasthttp.fresh req) route in
  fasthttp.Body answer1 = fasthttp.Body answer2
  ∧ fasthttp.statusCode (fasthttp.Header (fasthttp.Response_ answer1))
    = fasthttp.statusCode (fasthttp.Header (fasthttp.Response_ answer2))
  ∧ fasthttp.contentType (fasthttp.Header (fasthttp.Response_ answer1))
    = fasthttp.contentType (fasthttp.Header (fasthttp.Response_ answer2))
  ∧ (∀ name,
       valueSet name (fasthttp.h (fasthttp.Header (fasthttp.Response_ answer1)))
       = valueSet name
           (fasthttp.h (fasthttp.Header (fasthttp.Response_ answer2))))
  ∧ fasthttp.h (fasthttp.Header (fasthttp.Response_ answer1))
    ≡ₚ fasthttp.h (fasthttp.Header (fasthttp.Response_ answer2)).
Proof.
  intros Hroute Hconds answer1 answer2. subst answer1 answer2.
  rewrite !respond_fresh. unfold source.
  rewrite (checkConditions_order w1 w2).
  assert (∃ body (configured : map_string_string) status,
            distinctNames configured
            ∧ match Server.checkConditions w2 (Route.Conditions route)
                      (Server.extractHeaders (fasthttp.fresh req)) with
              | Some condition =>
                  (RouteCondition.GetResponseBody condition,
                   RouteCondition.GetResponseHeaders condition,
                   RouteCondition.GetResponseStatus condition)
              | None =>
                  (Route.GetResponseBody route,
                   Route.GetResponseHeaders route,
                   Route.GetResponseStatus route)
              end
              = (body,
                 match configured with None => Some ∅ | Some m => Some m end,
                 status))
    as (body & configured & status & Hdistinct & ->).
  { destruct (Server.checkConditions _ _ _) as [c|] eqn:Hc.
    - exists (RouteCondition.GetResponseBody c),
        (RouteCondition.ResponseHeader c),
        (RouteCondition.GetResponseStatus c).
      split; [|done].
      apply checkConditions_Some in Hc as (before & after & Heq & _).
      rewrite Heq in Hconds.
      by apply Forall_app in Hconds as [_ [? _]%Forall_cons].
    - by exists (Route.GetResponseBody route), (Route.ResponseHeader route),
        (Route.GetResponseStatus route). }
  pose proof (range_GetResponseHeaders w1 configured) as Hp1.
  pose proof (range_GetResponseHeaders w2 configured) as Hp2.
  set (l1 := range w1 _) in *. set (l2 := range w2 _) in *.
  assert (contentTypeAfter "" l1 = contentTypeAfter "" l2) as Hct.
  { apply (contentTypeAfter_order configured); [|done|done].
    by apply distinctNames_oneContentType. }
  assert (otherHeaders l1 ≡ₚ otherHeaders l2) as Hothers.
  { apply otherHeaders_Permutation. by rewrite Hp1, Hp2. }
  assert (∀ name, valueSet name (otherHeaders l1)
                  = valueSet name (otherHeaders l2)) as Hvalues.
  { intros name. apply valueSet_Permutation; [done|].
    intros k1 v1 k2 v2 Hin1%elem_of_otherHeaders Hin2%elem_of_otherHeaders
      Hk1 Hk2.
    rewrite Hp1 in Hin1, Hin2.
    apply elem_of_entries in Hin1, Hin2.
    assert (k1 = k2) as <-; [|congruence].
    apply (Hdistinct k1 v1 k2 v2 Hin1 Hin2).
    apply (caseInsensitiveCompare_trans k1 name k2); [|done].
    by rewrite caseInsensitiveCompare_sym. }
  assert (∀ l, contentTypeAfter "" (l ++ [("Content-Type", "application/json")])
               = "application/json"
               ∧ otherHeaders (l ++ [("Content-Type", "application/json")])
                 = otherHeaders l) as Hjson.
  { intros l. unfold contentTypeAfter, otherHeaders.
    rewrite fold_left_app, List.filter_app. cbn [fold_left List.filter].
    rewrite isContentType_Content_Type. cbn [negb]. by rewrite app_nil_r. }
  destruct (Route.ResponseDump route).
  - destruct (json.MarshalIndent _ _ _) as [dumpJSON|err];
      unfold composed, fasthttp.Body;
      cbn [fasthttp.Response_ fasthttp.Header fasthttp.body
           fasthttp.statusCode fasthttp.contentType fasthttp.h].
    + destruct (Hjson l1) as [-> ->]. by destruct (Hjson l2) as [-> ->].
    + done.
  - by unfold composed, fasthttp.Body;
      cbn [fasthttp.Response_ fasthttp.Header fasthttp.body
           fasthttp.statusCode fasthttp.contentType fasthttp.h].
Qed.
End Order.

(** A route with two headers, the maps visited one way and the other: the
    pairs are set in different orders, and each name is left with the same
    value. *)
Lemma respond_order_witness :
  let answer1 :=
    Server.respond (H := asciiExtern) (world TimerC)
      (fasthttp.fresh (requestWith [("Accept", "*/*")] [])) twoHeaders in
  let answer2 :=
    Server.respond (H := asciiExtern) (backwards TimerC)
      (fasthttp.fresh (requestWith [("Accept", "*/*")] [])) twoHeaders in
  fasthttp.h (fasthttp.Header (fasthttp.Response_ answer2))
  = reverse (fasthttp.h (fasthttp.Header (fasthttp.Response_ answer1)))
  ∧ length (fasthttp.h (fasthttp.Header (fasthttp.Response_ answer1))) = 2%nat
  ∧ valueSet "x-custom"
      (fasthttp.h (fasthttp.Header (fasthttp.Response_ answer1)))
    = Some "a"
  ∧ valueSet "x-custom"
      (fasthttp.h (fasthttp.Header (fasthttp.Response_ answer1)))
    = valueSet "x-custom"
        (fasthttp.h (fasthttp.Header (fasthttp.Response_ answer2))).
Proof.
  split; [reflexivity|]. split; [reflexivity|]. split; [reflexivity|].
  refine (proj1 (proj2 (proj2 (proj2
            (respond_order (H := asciiExtern) (world TimerC)
               (backwards TimerC)
               (requestWith [("Accept", "*/*")] []) twoHeaders _ _))))
            "x-custom").
  - intros k1 v1 k2 v2 Hk1 Hk2 Hsame. cbn in Hk1, Hk2.
    apply lookup_insert_Some in Hk1 as [[<- _]|[_ [<- _]%lookup_singleton_Some]];
      apply lookup_insert_Some in Hk2
        as [[<- _]|[_ [<- _]%lookup_singleton_Some]];
      try done; by vm_compute in Hsame.
  - constructor.
Defined.

(** With Content-Type spelt in two ways the order shows: the two visits
    leave different types. *)
Example two_spellings_depend_on_order :
  fasthttp.contentType
    (fasthttp.Header (fasthttp.Response_
       (Server.respond (H := asciiExtern) (world TimerC)
          (fasthttp.fresh (requestWith [] [])) twoSpellings)))
  ≠ fasthttp.contentType
      (fasthttp.Header (fasthttp.Response_
         (Server.respond (H := asciiExtern) (backwards TimerC)
            (fasthttp.fresh (requestWith [] [])) twoSpellings))).
Proof. vm_compute. discriminate. Qed.

(** And so it does with any other name spelt in two ways: the name is left
    with the value of the key visited last. *)
Example two_cases_depend_on_order :
  valueSet "X-Custom"
    (fasthttp.h (fasthttp.Header (fasthttp.Response_
       (Server.respond (H := asciiExtern) (world TimerC)
          (fasthttp.fresh (requestWith [] [])) twoCases))))
  ≠ valueSet "X-Custom"
      (fasthttp.h (fasthttp.Header (fasthttp.Response_
         (Server.respond (H := asciiExtern) (backwards TimerC)
            (fasthttp.fresh (requestWith [] [])) twoCases)))).
Proof. vm_compute. discriminate. Qed.

(** ** Further properties of the code: the delay *)

Section Timers.
Context `{Extern}.

(** [handleRoute] makes a timer exactly when the delay parameter resolves
    to a positive duration: one timer, for that duration, stopped before
    the handler returns, whether it fired or shutdown came first; no route
    and no header changes that. *)
Theorem handleRoute_timers (w : World) (ctx : fasthttp.RequestCtx)
    (route : Route.t) :
  snd (Server.handleRoute w ctx route)
  = match Server.parseDelayParam ctx with
    | inl delay =>
        if 0 <? delay then [Server.NewTimer delay; Server.Stop] else []
    | inr _ => []
    end.
Proof.
  destruct (handleRoute_outcomes w ctx route)
    as [(err & -> & ->)
       | [(delay & -> & Hpos & _ & ->) | (delay & -> & _ & ->)]];
    cbn [snd]; [done| |done].
  by destruct (Z.ltb_spec 0 delay); [|lia].
Qed.
End Timers.

Lemma digits_nonneg (s : string) (a n : Z) :
  strconv.digits a s = Some n → 0 ≤ a → 0 ≤ n.
Proof.
  revert a. induction s as [|c s IH]; intros a; simpl.
  - by intros [= <-].
  - destruct ((0 <=? byte c - 48) && (byte c - 48 <=? 9)) eqn:Hd; [|done].
    apply andb_true_iff in Hd as [?%Z.leb_le ?%Z.leb_le].
    intros Hs Ha. apply (IH _ Hs). lia.
Qed.

Lemma digits_leadingInt (s : string) (a n x : Z) :
  strconv.digits a s = Some n →
  time.leadingInt x s = None ∨ ∃ v, time.leadingInt x s = Some (v, "").
Proof.
  revert a x. induction s as [|c s IH]; intros a x; simpl.
  - intros _. right. by exists x.
  - unfold time.isDigit.
    destruct (Z.leb_spec 0 (byte c - 48)), (Z.leb_spec (byte c - 48) 9);
      try done.
    destruct (Z.leb_spec 48 (byte c)), (Z.leb_spec (byte c) 57); try lia.
    cbn [andb negb]. intros Hs.
    destruct (2 ^ 63 `div` 10 <? x); [by left|].
    destruct (2 ^ 63 <? x * 10 + byte c - 48); [by left|].
    apply (IH _ _ Hs).
Qed.

(** A first byte that is a digit is no sign. *)
Lemma digit_no_sign (c : ascii) (s : string) :
  time.isDigit (byte c) = true →
  match String c s with
  | String "-" r => (true, r)
  | String "+" r => (false, r)
  | _ => (false, String c s)
  end = (false, String c s).
Proof.
  destruct c as [[] [] [] [] [] [] [] []]; try done; by vm_compute.
Qed.

Lemma digits_first (c : ascii) (s : string) (n : Z) :
  strconv.digits 0 (String c s) = Some n → time.isDigit (byte c) = true.
Proof.
  simpl. unfold time.isDigit.
  destruct (Z.leb_spec 0 (byte c - 48)), (Z.leb_spec (byte c - 48) 9);
    try done.
  intros _. apply andb_true_iff. split; apply Z.leb_le; lia.
Qed.

(** On a string of digits the duration parser reads the single digit 0 and
    refuses everything else. *)
Lemma ParseDuration_digits (s : string) (n : Z) :
  strconv.digits 0 s = Some n → s ≠ "" →
  (time.ParseDuration s = inl 0 ∧ n = 0)
  ∨ ∃ err, time.ParseDuration s = inr err.
Proof.
  intros Hdigits Hne. destruct s as [|c s']; [done|].
  pose proof (digits_first c s' n Hdigits) as Hc.
  unfold time.ParseDuration. rewrite (digit_no_sign c s' Hc).
  destruct (String.eqb_spec (String c s') "0") as [Hzero|_].
  { left. split; [done|]. rewrite Hzero in Hdigits. by injection Hdigits. }
  destruct (String.eqb_spec (String c s') "") as [|_]; [done|].
  right. cbn [String.length time.parseLoop].
  rewrite Hc, orb_true_r. cbn [negb].
  destruct (digits_leadingInt (String c s') 0 n 0 Hdigits) as [->|[v ->]];
    [by eexists|].
  cbn. by eexists.
Qed.

(** A delay parameter of decimal digits alone, of value up to
    9223372036854, resolves to that many milliseconds, with no error. *)
Theorem digits_are_milliseconds (req : fasthttp.Request) (n : Z) :
  fasthttp.Peek (fasthttp.QueryArgs req) "delay" ≠ "" →
  strconv.digits 0 (fasthttp.Peek (fasthttp.QueryArgs req) "delay") = Some n →
  n ≤ 9223372036854 →
  Server.parseDelayParam (fasthttp.fresh req) = inl (n * time.Millisecond).
Proof.
  intros Hne Hdigits Hsmall.
  pose proof (digits_nonneg _ 0 n Hdigits ltac:(done)) as Hn.
  unfold Server.parseDelayParam. cbn [fasthttp.fresh fasthttp.Request_].
  set (s := fasthttp.Peek (fasthttp.QueryArgs req) "delay") in *.
  destruct (String.eqb_spec s "") as [|_]; [done|].
  destruct (ParseDuration_digits s n Hdigits Hne) as [[-> ->]|[err ->]];
    [done|].
  assert (strconv.Atoi s = Some n) as ->.
  { destruct s as [|c s']; [done|]. unfold strconv.Atoi.
    rewrite (digit_no_sign c s' (digits_first c s' n Hdigits)), Hdigits.
    by destruct (Z.ltb_spec n (2 ^ 63)); [|lia]. }
  rewrite wrap64_in_range; [done|].
  unfold minInt64, maxInt64, time.Millisecond, time.Microsecond,
    time.Nanosecond. lia.
Qed.

(** The request [?delay=250]. *)
Lemma digits_are_milliseconds_witness :
  Server.parseDelayParam (fasthttp.fresh (requestWith [] [("delay", "250")]))
  = inl (250 * time.Millisecond).
Proof.
  apply (digits_are_milliseconds (requestWith [] [("delay", "250")]) 250);
    [discriminate | reflexivity | lia].
Defined.

(** ** Further properties of the code: validated routes are reachable *)

Section Reach.
Context `{Extern}.

Lemma validRoute_GetMethod (r : Route.t) :
  validRoute r →
  Route.GetMethod r
  ∈ ["GET"; "POST"; "PUT"; "DELETE"; "PATCH"; "HEAD"; "OPTIONS"].
Proof.
  intros [_ [Hm|Hm]]; unfold Route.GetMethod.
  - rewrite Hm. cbn. apply list_elem_of_here.
  - destruct (String.eqb_spec (Route.Method r) "") as [He|_]; [|done].
    rewrite He in Hm.
    repeat (apply elem_of_cons in Hm as [Hm|Hm]; [discriminate Hm|]).
    by apply elem_of_nil in Hm.
Qed.

Lemma EqualFold_methods (a b : string) :
  a ∈ ["GET"; "POST"; "PUT"; "DELETE"; "PATCH"; "HEAD"; "OPTIONS"] →
  b ∈ ["GET"; "POST"; "PUT"; "DELETE"; "PATCH"; "HEAD"; "OPTIONS"] →
  strings.EqualFold a b = true ↔ a = b.
Proof.
  intros Ha Hb.
  repeat (apply elem_of_cons in Ha as [->|Ha]);
    try (by apply elem_of_nil in Ha);
    repeat (apply elem_of_cons in Hb as [->|Hb]);
    try (by apply elem_of_nil in Hb);
    by split.
Qed.

(** In a configuration that [validateConfig] accepts, a route that is the
    first with its path and method is reachable: the request for its path
    with its method, GET if it has none, is answered by that route. *)
Theorem validated_route_is_served (w : World) (config : ServerConfig.t)
    (before after : list Route.t) (route : Route.t)
    (ctx : fasthttp.RequestCtx) :
  (configs.validateConfig config).2 = None →
  ServerConfig.Routes config = before ++ route :: after →
  Forall (λ r, Route.Path r ≠ Route.Path route
               ∨ Route.GetMethod r ≠ Route.GetMethod route) before →
  Server.RequestHandler w config (Route.Path route) (Route.GetMethod route)
    ctx
  = Server.handleRoute w ctx route.
Proof.
  intros Hvalid Hroutes Hfirst.
  rewrite validateConfig_verdict in Hvalid.
  apply validateRoutes_None in Hvalid. rewrite Hroutes in Hvalid.
  apply Forall_app in Hvalid as [Hbefore [Hroute _]%Forall_cons].
  pose proof (validRoute_GetMethod route Hroute) as Hmethod.
  unfold Server.RequestHandler. rewrite Hroutes.
  rewrite serve_skips.
  - cbn [Server.serve].
    assert (Server.matchRoute route (Route.Path route)
              (Route.GetMethod route) = true) as ->; [|done].
    apply matchRoute_fits. split; [done|].
    by apply EqualFold_methods.
  - clear Hroutes. induction Hfirst as [|r rest Hr _ IH]; [constructor|].
    apply Forall_cons in Hbefore as [Hvr Hrest].
    constructor; [|by apply IH].
    intros [Hpath Hfold]. destruct Hr as [Hr|Hr]; [done|].
    apply Hr. apply EqualFold_methods; try done.
    by apply validRoute_GetMethod.
Qed.

(** Whatever the route and the request, the dump flag changes the body and
    the Content-Type of the response and nothing else: the status and the
    other headers are those of the response without the dump. *)
Theorem dump_keeps_status_and_headers (w : World) (req : fasthttp.Request)
    (route : Route.t) :
  let dumped := Server.respond w (fasthttp.fresh req) (withDump true route) in
  let plain := Server.respond w (fasthttp.fresh req) (withDump false route) in
  fasthttp.statusCode (fasthttp.Header (fasthttp.Response_ dumped))
  = fasthttp.statusCode (fasthttp.Header (fasthttp.Response_ plain))
  ∧ fasthttp.h (fasthttp.Header (fasthttp.Response_ dumped))
    = fasthttp.h (fasthttp.Header (fasthttp.Response_ plain))
  ∧ fasthttp.Request_ dumped = fasthttp.Request_ plain
  ∧ fasthttp.contentType (fasthttp.Header (fasthttp.Response_ dumped))
    = "application/json".
Proof.
  intros dumped plain. subst dumped plain.
  rewrite !respond_fresh. unfold source.
  cbn [withDump Route.Conditions Route.ResponseDump].
  change (Route.GetResponseBody (withDump true route))
    with (Route.GetResponseBody (withDump false route)).
  change (Route.GetResponseHeaders (withDump true route))
    with (Route.GetResponseHeaders (withDump false route)).
  change (Route.GetResponseStatus (withDump true route))
    with (Route.GetResponseStatus (withDump false route)).
  destruct (match Server.checkConditions _ _ _ with
            | Some _ => _ | None => _ end) as [[body headers] status].
  unfold json.MarshalIndent, composed, contentTypeAfter, otherHeaders.
  cbn [fasthttp.Response_ fasthttp.Header fasthttp.statusCode fasthttp.h
       fasthttp.contentType fasthttp.Request_].
  rewrite fold_left_app, List.filter_app. cbn [fold_left List.filter].
  rewrite isContentType_Content_Type. cbn [negb].
  by rewrite app_nil_r.
Qed.
End Reach.

(** The route for [POST /api/users], the second of the loaded
    configuration. *)
Lemma validated_route_is_served_witness :
  Server.RequestHandler (H := asciiExtern) (world TimerC)
    (configs.validateConfig sampleConfig).1 "/api/users" "POST"
    (fasthttp.fresh (requestWith [] []))
  = Server.handleRoute (H := asciiExtern) (world TimerC)
      (fasthttp.fresh (requestWith [] [])) users.
Proof.
  apply (validated_route_is_served (H := asciiExtern) (world TimerC)
           (configs.validateConfig sampleConfig).1 [hello] [] users
           (fasthttp.fresh (requestWith [] [])));
    [reflexivity | reflexivity |].
  constructor; [|constructor]. left. discriminate.
Defined.
